(** * Voltix: a shallow embedding of [src/main.py] and its properties

    The program reads the battery state (psutil, then /sys/class/power_supply,
    then nothing), merges simulated values given on the command line, and
    prints a fixed-geometry gauge.  Python values are modelled as follows:

    - [int] is [Z] (unbounded);
    - [str] is a list of Unicode code points ([pystr]), so that [len] is
      [length], also for the box-drawing characters;
    - [float] is a finite binary64 number [mant * 2 ^ expo]; the true
      division of two integers is rounded to nearest, ties to even, as
      CPython does;
    - a [dict] with string keys is a [gmap string pyval];
    - exceptions are the [Raise] results of [result];
    - effects (psutil, the file system, the terminal) are events appended to
      a trace by a small state-and-exception monad; the environment says
      what each call gives, also which of the calls outside a [try]
      ([psutil.sensors_battery()], [os.listdir], [console.print]) raise. *)

From Stdlib Require Import ZArith List String Ascii Lia Bool.
From stdpp Require Import gmap strings list.

Local Open Scope Z_scope.

(** ** Strings *)

Definition pychar := N.
Definition pystr := list pychar.

(** A literal of the source, as code points (ASCII literals only). *)
Definition lit (s : string) : pystr := map N_of_ascii (list_ascii_of_string s).

(** [s * n]: repetition; a count below one gives the empty string.  The
    failure to allocate a very long string ([MemoryError], and
    [OverflowError] from a count of 2^63 on) is not modelled: the theorems
    about rows that are built keep the percent within 10^6 in absolute
    value, where a row has at most 280002 characters. *)
Definition str_mul (s : pystr) (n : Z) : pystr := mjoin (replicate (Z.to_nat n) s).

(** [len(s)] *)
Definition len {A} (l : list A) : Z := Z.of_nat (length l).

(** [str.lower], character by character.  Only the ASCII letters are folded:
    the callers test the result with [startswith] against ASCII prefixes
    ("charg", "bat"), and no code point outside A-Z lowers to one of their
    letters. *)
Definition lower_char (c : pychar) : pychar :=
  if ((65 <=? c) && (c <=? 90))%N then (c + 32)%N else c.

Definition lower (s : pystr) : pystr := map lower_char s.

Fixpoint startswith (s p : pystr) {struct p} : bool :=
  match p, s with
  | [], _ => true
  | _ :: _, [] => false
  | b :: p', a :: s' => (a =? b)%N && startswith s' p'
  end.

(** [s.split(".")[0]]: the text before the first full stop. *)
Fixpoint split_dot_first (s : pystr) : pystr :=
  match s with
  | [] => []
  | c :: s' => if (c =? 46)%N then [] else c :: split_dot_first s'
  end.

(** [str.center(width)] with the default fill character, as CPython pads:
    left = marg // 2 + (marg & width & 1). *)
Definition center (s : pystr) (width : Z) : pystr :=
  let marg := width - len s in
  if marg <=? 0 then s
  else
    let left := marg / 2 + Z.land (Z.land marg width) 1 in
    str_mul [32%N] left ++ s ++ str_mul [32%N] (marg - left).

(** ** Decimal formatting *)

Definition digit (d : Z) : pychar := (48 + Z.to_N d)%N.

Fixpoint digits_go (fuel : nat) (n : Z) (acc : pystr) : pystr :=
  match fuel with
  | O => acc
  | S f =>
      let acc' := digit (n mod 10) :: acc in
      if n <? 10 then acc' else digits_go f (n / 10) acc'
  end.

(** The decimal digits of [n >= 0]; the fuel (one more than the binary
    length) always suffices. *)
Definition digits (n : Z) : pystr := digits_go (S (Z.to_nat (Z.log2 n))) n [].

(** [str(n)] and ["%d" % n] *)
Definition str_of_int (n : Z) : pystr :=
  if n <? 0 then 45%N :: digits (- n) else digits n.

(** ["%02d" % n]: zero-padded to two columns, the sign included. *)
Definition fmt_02d (n : Z) : pystr :=
  if n <? 0 then
    let d := digits (- n) in 45%N :: str_mul [48%N] (1 - len d) ++ d
  else
    let d := digits n in str_mul [48%N] (2 - len d) ++ d.

(** ** Exceptions *)

Inductive exn :=
  | OverflowError | IndexError | ZeroDivisionError | TypeError | ValueError
  | OSError | ImportError
  | FileNotFoundError | PermissionError | AttributeError | UnicodeEncodeError.

Inductive result (A : Type) :=
  | Ok (a : A)
  | Raise (e : exn).
Arguments Ok {A} a.
Arguments Raise {A} e.

Definition rbind {A B} (r : result A) (k : A -> result B) : result B :=
  match r with Ok a => k a | Raise e => Raise e end.

(** ** Floats: the result of [int / int] and [int()], [round()] of it *)

Record pyfloat := { mant : Z; expo : Z }.

(** Nearest integer to [n / d] for [0 <= n], [0 < d], ties to even. *)
Definition rne_div (n d : Z) : Z :=
  let q := n / d in
  match 2 * (n mod d) ?= d with
  | Lt => q
  | Gt => q + 1
  | Eq => if Z.even q then q else q + 1
  end.

(** The exponent [e] of the binary64 number nearest to [n / d]
    ([0 < n], [0 < d]): [2^52 <= n / (d * 2^e) < 2^53], and not below the
    exponent of the subnormal numbers. *)
Definition float_exponent (n d : Z) : Z :=
  let l := Z.log2 n - Z.log2 d in
  let le_scaled := if 0 <=? l then d * 2 ^ l <=? n else d <=? n * 2 ^ (- l) in
  let fl := if le_scaled then l else l - 1 in
  Z.max (fl - 52) (-1074).

(** [a / b] on integers: the correctly rounded quotient, [ZeroDivisionError]
    for a zero divisor and [OverflowError] when the quotient is too large
    for a float. *)
Definition true_div (a b : Z) : result pyfloat :=
  if b =? 0 then Raise ZeroDivisionError
  else if a =? 0 then Ok {| mant := 0; expo := 0 |}
  else
    let n := Z.abs a in
    let d := Z.abs b in
    let e := float_exponent n d in
    let m := if 0 <=? e then rne_div n (d * 2 ^ e) else rne_div (n * 2 ^ (- e)) d in
    if (0 <=? e) && (2 ^ 1024 <=? m * 2 ^ e) then Raise OverflowError
    else Ok {| mant := Z.sgn a * Z.sgn b * m; expo := e |}.

(** [int(x)]: truncation toward zero. *)
Definition int_of_float (x : pyfloat) : Z :=
  if 0 <=? expo x then mant x * 2 ^ expo x
  else Z.quot (mant x) (2 ^ (- expo x)).

(** [round(x)]: nearest integer, ties to even. *)
Definition round_float (x : pyfloat) : Z :=
  if 0 <=? expo x then mant x * 2 ^ expo x
  else Z.sgn (mant x) * rne_div (Z.abs (mant x)) (2 ^ (- expo x)).

(** ** Utility functions *)

(** [str(timedelta(seconds=secs))] for an integer [secs]: the constructor
    normalises to days and seconds of the day and refuses more than
    999999999 days; [__str__] is
    ["%d:%02d:%02d" % (hh, mm, ss)], preceded by ["%d day%s, "] when the
    day count is not zero (there are no microseconds here). *)
Definition timedelta_str (secs : Z) : result pystr :=
  let days := secs / 86400 in
  let seconds := secs mod 86400 in
  if 999999999 <? Z.abs days then Raise OverflowError
  else
    let mm := seconds / 60 in
    let ss := seconds mod 60 in
    let hh := mm / 60 in
    let mm := mm mod 60 in
    let s := str_of_int hh ++ lit ":" ++ fmt_02d mm ++ lit ":" ++ fmt_02d ss in
    Ok (if days =? 0 then s
        else str_of_int days ++ lit " day"
               ++ (if Z.abs days =? 1 then [] else lit "s") ++ lit ", " ++ s).

(** A value used as a condition: [None] and the empty string are false. *)
Definition truthy_str (s : option pystr) : bool :=
  match s with Some (_ :: _) => true | _ => false end.

Definition format_time (secs : option Z) (status : option pystr) : result pystr :=
  let unknown :=
    if truthy_str status && startswith (lower (default [] status)) (lit "charg")
    then Ok (lit "Charging...")
    else Ok (lit "Unknown") in
  match secs with
  | None => unknown
  | Some n =>
      if n <? 0 then unknown
      else rbind (timedelta_str n) (fun s => Ok (split_dot_first s))
  end.

Definition color_for_percent (percent : Z) : string :=
  if percent <? 20 then "red"%string
  else if percent <? 60 then "yellow"%string
  else "green"%string.

(** ** Effects: the trace of what the program touches *)

Inductive event :=
  | EImportPsutil
  | ESensorsBattery
  | EIsDir (p : pystr)
  | EListDir (p : pystr)
  | EExists (p : pystr)
  | EOpen (p : pystr)
  | ETerminalSize
  | EPrint (style : string) (text : pystr).
(** [EPrint style text] is the call [console.print(Text(text, style=style))]:
    [text] is what the program hands to the console, which lays it out
    itself (it wraps lines wider than the terminal). *)

(** A computation appends events to the trace and returns or raises; the
    events before a raise stay in the trace. *)
Definition M (A : Type) : Type := list event -> result A * list event.

#[export] Instance M_ret : MRet M := fun A a t => (Ok a, t).
#[export] Instance M_bind : MBind M := fun A B k m t =>
  match m t with
  | (Ok a, t') => k a t'
  | (Raise e, t') => (Raise e, t')
  end.

Definition tell (e : event) : M unit := fun t => (Ok tt, t ++ [e]).
Definition raise {A} (e : exn) : M A := fun t => (Raise e, t).
Definition lift {A} (r : result A) : M A := fun t => (r, t).

(** [try: m except Exception: h] *)
Definition try_except {A} (m : M A) (h : M A) : M A := fun t =>
  match m t with
  | (Ok a, t') => (Ok a, t')
  | (Raise _, t') => h t'
  end.

Definition run {A} (m : M A) : result A * list event := m [].

(** ** The environment *)

Inductive pynum := PInt (n : Z) | PFloat (x : pyfloat).

(** What [psutil.sensors_battery()] returns: [percent] is a number,
    [secsleft] an integer, one of psutil's two negative constants or [None],
    [power_plugged] a boolean or [None]. *)
Record sbattery := {
  sb_percent : pynum;
  sb_secsleft : option Z;
  sb_power_plugged : option bool
}.

(** psutil's constants for [secsleft] (psutil/_common.py). *)
Definition POWER_TIME_UNKNOWN : Z := -1.
Definition POWER_TIME_UNLIMITED : Z := -2.

(** An attribute file of a device directory. *)
Inductive file :=
  | Absent
  | Unreadable
  | Content (s : pystr).

Record device := { dev_capacity : file; dev_status : file }.

Record world := {
  (** [None]: [import psutil] fails; [Some (Raise e)]: the call
      [psutil.sensors_battery()] raises [e] (on Linux [FileNotFoundError]
      without /sys/class/power_supply, [AttributeError] where psutil has no
      such function); [Some (Ok None)]: no battery is reported *)
  psutil : option (result (option sbattery));
  (** [None]: /sys/class/power_supply is no directory; [Some (Raise e)]:
      [os.listdir] raises [e] on it; else its entries in the order
      [os.listdir] gives them *)
  power_supply : option (result (list (pystr * device)));
  (** [None]: [os.get_terminal_size] raises [OSError] *)
  terminal_columns : option Z;
  (** what [console.print] does with a style and a text: [None] when it
      returns, [Some e] when writing to the terminal raises [e]
      ([UnicodeEncodeError] for an output encoding without the
      box-drawing characters) *)
  console_write : string -> pystr -> option exn
}.

(** ** Dictionaries *)

Inductive pyval :=
  | VNone
  | VInt (n : Z)
  | VStr (s : pystr).

Abbreviation dict := (gmap string pyval).

(** [x or y] on values that are [None] or a dictionary: an empty dictionary
    is false as well. *)
Definition truthy (o : option dict) : bool :=
  match o with
  | Some d => bool_decide (d ≠ ∅)
  | None => false
  end.

(** ** Battery sources *)

(** [str.isspace] of one character *)
Definition is_space (c : pychar) : bool :=
  ((9 <=? c) && (c <=? 13) || (28 <=? c) && (c <=? 32) || (c =? 133) || (c =? 160)
   || (c =? 5760) || (8192 <=? c) && (c <=? 8202) || (c =? 8232) || (c =? 8233)
   || (c =? 8239) || (c =? 8287) || (c =? 12288))%N.

Fixpoint lstrip (s : pystr) : pystr :=
  match s with
  | c :: s' => if is_space c then lstrip s' else s
  | [] => []
  end.

Definition strip (s : pystr) : pystr := rev (lstrip (rev (lstrip s))).

(** [int(round(x))]: an integer rounds to itself. *)
Definition py_round (x : pynum) : Z :=
  match x with
  | PInt n => n
  | PFloat f => round_float f
  end.

(** Only the import is inside the [try]: what [psutil.sensors_battery()]
    raises leaves the function. *)
Definition get_psutil_battery (w : world) : M (option dict) :=
  tell EImportPsutil;;
  match psutil w with
  | None => mret None
  | Some facility =>
      tell ESensorsBattery;;
      match facility with
      | Raise e => raise e
      | Ok None => mret None
      | Ok (Some b) =>
          mret (Some (
            <["secs_left" :=
                match sb_secsleft b with
                | None => VNone
                | Some s => if s =? -1 then VNone else VInt s
                end]>
            (<["status" :=
                VStr (if default false (sb_power_plugged b)
                      then lit "Charging" else lit "Discharging")]>
            (<["percent" := VInt (py_round (sb_percent b))]> ∅))))
      end
  end.

Definition base : pystr := lit "/sys/class/power_supply".

(** [os.path.join] of a directory and an entry name *)
Definition path_join (d name : pystr) : pystr := d ++ lit "/" ++ name.

Section SysBattery.

(** The builtin [int] on a string: the number, or [None] for
    [ValueError]. *)
Variable int_of_str : pystr -> option Z.

(** [int(cap)]: [TypeError] on [None]. *)
Definition py_int (cap : option pystr) : M Z :=
  match cap with
  | None => raise TypeError
  | Some s =>
      match int_of_str s with
      | Some n => mret n
      | None => raise ValueError
      end
  end.

(** The local function [readf] of [get_sys_battery] for the device at
    [path]. *)
Definition readf (path : pystr) (fname : pystr) (f : file) : M (option pystr) :=
  let p := path_join path fname in
  tell (EExists p);;
  match f with
  | Absent => mret None
  | Unreadable => tell (EOpen p);; raise OSError
  | Content s => tell (EOpen p);; mret (Some (strip s))
  end.

(** [os.path.exists] *)
Definition exists_file (p : pystr) (f : file) : M bool :=
  tell (EExists p);;
  mret (match f with Absent => false | _ => true end).

(** The body of the [try] statement for the device at [path]. *)
Definition read_device (path : pystr) (d : device) : M (option dict) :=
  cap ← readf path (lit "capacity") (dev_capacity d);
  st ← readf path (lit "status") (dev_status d);
  let status := if truthy_str st then default [] st else lit "Unknown" in
  n ← py_int cap;
  mret (Some (<["status" := VStr status]> (<["percent" := VInt n]> ∅))).

(** The loop over [os.listdir(base)]. *)
Fixpoint scan_devices (entries : list (pystr * device)) : M (option dict) :=
  match entries with
  | [] => mret None
  | (name, d) :: rest =>
      let path := path_join base name in
      candidate ←
        (if startswith (lower name) (lit "bat") then mret true
         else exists_file (path_join path (lit "capacity")) (dev_capacity d));
      if (candidate : bool) then
        try_except (read_device path d) (scan_devices rest)
      else scan_devices rest
  end.

(** The [try] is inside the loop: what [os.listdir] raises leaves the
    function. *)
Definition get_sys_battery (w : world) : M (option dict) :=
  tell (EIsDir base);;
  match power_supply w with
  | None => mret None
  | Some listing =>
      tell (EListDir base);;
      match listing with
      | Raise e => raise e
      | Ok entries => scan_devices entries
      end
  end.

End SysBattery.

(** ** Rendering *)

(** [l[i] = x] and [l[i]]: a negative index counts from the end, an index
    out of range raises [IndexError]. *)
Definition setitem {A} (l : list A) (i : Z) (x : A) : result (list A) :=
  let n := len l in
  if (0 <=? i) && (i <? n) then Ok (<[Z.to_nat i := x]> l)
  else if (- n <=? i) && (i <? 0) then Ok (<[Z.to_nat (n + i) := x]> l)
  else Raise IndexError.

Definition getitem {A} (l : list A) (i : Z) : result A :=
  let n := len l in
  let j := if i <? 0 then n + i else i in
  if (0 <=? j) && (j <? n) then
    match l !! Z.to_nat j with
    | Some x => Ok x
    | None => Raise IndexError
    end
  else Raise IndexError.

Definition newline : pystr := [10%N].

(** [sep.join(l)] *)
Fixpoint join (sep : pystr) (l : list pystr) : pystr :=
  match l with
  | [] => []
  | [x] => x
  | x :: rest => x ++ sep ++ join sep rest
  end.

(** The line boundaries of [str.splitlines]. *)
Definition is_linebreak (c : pychar) : bool :=
  ((10 <=? c) && (c <=? 13) || (28 <=? c) && (c <=? 30) || (c =? 133)
   || (c =? 8232) || (c =? 8233))%N.

(** [cur] is the current line, reversed; [after_cr] tells that the previous
    character was a carriage return, which takes a following line feed with
    it. *)
Fixpoint splitlines_go (s : pystr) (cur : pystr) (after_cr : bool) : list pystr :=
  match s with
  | [] => match cur with [] => [] | _ => [rev cur] end
  | c :: s' =>
      if after_cr && (c =? 10)%N then splitlines_go s' cur false
      else if is_linebreak c then rev cur :: splitlines_go s' [] (c =? 13)%N
      else splitlines_go s' (c :: cur) false
  end.

Definition splitlines (s : pystr) : list pystr := splitlines_go s [] false.

Definition center_text_block (w : world) (block : pystr) : M pystr :=
  tell ETerminalSize;;
  let term_width := default 80 (terminal_columns w) in
  let lines := splitlines block in
  let max_len := foldr Z.max 0 (map len lines) in
  let left_pad := Z.max ((term_width - max_len) / 2) 0 in
  mret (join newline
             (map (fun line => str_mul [32%N] left_pad ++ line) lines)).

Definition width : Z := 28.
Definition height : Z := 9.
Definition full_block : pychar := 9608%N.   (* U+2588 *)
Definition box_v : pychar := 9474%N.        (* U+2502 *)
Definition box_h : pychar := 9472%N.        (* U+2500 *)
Definition box_tl : pychar := 9581%N.       (* U+256D *)
Definition box_tr : pychar := 9582%N.       (* U+256E *)
Definition box_bl : pychar := 9584%N.       (* U+2570 *)
Definition box_br : pychar := 9583%N.       (* U+256F *)

(** [int((percent * width) / 100)] *)
Definition fill_cols (percent : Z) : result Z :=
  rbind (true_div (percent * width) 100) (fun x => Ok (int_of_float x)).

(** One interior row, as the loop body builds it. *)
Definition interior_row (fill_cols : Z) : pystr :=
  [box_v] ++ (str_mul [full_block] fill_cols ++ str_mul [32%N] (width - fill_cols))
          ++ [box_v].

(** The terminal cap, centered over the box. *)
Definition cap_line : pystr :=
  let cap := str_mul [32%N] ((width - (width - width / 3)) / 2)
             ++ str_mul (lit "_") (width - width / 3) in
  center cap (width + 2).

Definition top_border : pystr := [box_tl] ++ str_mul [box_h] width ++ [box_tr].
Definition bottom_border : pystr := [box_bl] ++ str_mul [box_h] width ++ [box_br].

(** The [lines] of [render_battery] before the percent text is written. *)
Definition box_lines (fill_cols : Z) : list pystr :=
  [cap_line; top_border]
  ++ replicate (Z.to_nat height) (interior_row fill_cols)
  ++ [bottom_border].

(** [for i, ch in enumerate(perc_text): row[start + i] = ch] *)
Fixpoint overlay (row : pystr) (start : Z) (text : pystr) : result pystr :=
  match text with
  | [] => Ok row
  | ch :: text' =>
      rbind (setitem row start ch) (fun row' => overlay row' (start + 1) text')
  end.

Definition perc_text (percent : Z) : pystr := str_of_int percent ++ lit "%".
Definition mid : Z := 2 + height / 2.
Definition overlay_start (text : pystr) : Z := 1 + (width - len text) / 2.

(** The [lines] of [render_battery] with the percent text in the middle row
    (the state before the info lines are appended). *)
Definition gauge_lines (percent : Z) : result (list pystr) :=
  rbind (fill_cols percent) (fun fc =>
  let lines := box_lines fc in
  let text := perc_text percent in
  rbind (getitem lines mid) (fun row =>
  rbind (overlay row (overlay_start text) text) (fun row' =>
  setitem lines mid row'))).

Definition info_lines (percent : Z) (status : pystr) (secs_left : option Z)
  : result (list pystr) :=
  rbind (format_time secs_left (Some status)) (fun time =>
  Ok [lit "Status : " ++ status;
      lit "Charge : " ++ str_of_int percent ++ lit "%";
      lit "Time   : " ++ time]).

Definition combined (lines info : list pystr) : list pystr :=
  imap (fun i l => match info !! i with
                   | Some x => l ++ lit "   " ++ x
                   | None => l
                   end) lines.

Definition render_battery (w : world) (percent : Z) (status : pystr)
    (secs_left : option Z) : M unit :=
  lines ← lift (gauge_lines percent);
  info ← lift (info_lines percent status secs_left);
  let color := color_for_percent percent in
  let block := join newline (combined lines info) in
  text ← center_text_block w block;
  tell (EPrint color text);;
  match console_write w color text with
  | Some e => raise e
  | None => mret tt
  end.

(** ** The command *)

Section Show.

Variable int_of_str : pystr -> option Z.

(** [get_psutil_battery() or get_sys_battery() or {}] *)
Definition read_sources (w : world) : M dict :=
  a ← get_psutil_battery w;
  if truthy a then mret (default ∅ a)
  else
    b ← get_sys_battery int_of_str w;
    if truthy b then mret (default ∅ b) else mret ∅.

(** The three [if ... is not None] assignments. *)
Definition override (level : option Z) (status : option pystr)
    (secsleft : option Z) (info : dict) : dict :=
  let info := match level with Some v => <["percent" := VInt v]> info | None => info end in
  let info := match status with Some v => <["status" := VStr v]> info | None => info end in
  match secsleft with Some v => <["secs_left" := VInt v]> info | None => info end.

(** The arguments of the call [render_battery(percent, status, secs)]. *)
Definition render_args (info : dict) : pyval * pyval * pyval :=
  (default (VInt 50) (info !! "percent"),
   default (VStr (lit "Unknown")) (info !! "status"),
   default VNone (info !! "secs_left")).

(** The call of [render_battery] with the values of the dictionary: the
    function works on an integer, a string and an integer or [None]. *)
Definition call_render (w : world) (args : pyval * pyval * pyval) : M unit :=
  match args with
  | (VInt p, VStr s, VNone) => render_battery w p s None
  | (VInt p, VStr s, VInt t) => render_battery w p s (Some t)
  | _ => raise TypeError
  end.

Definition show (w : world) (level : option Z) (status : option pystr)
    (secsleft : option Z) : M unit :=
  info ← read_sources w;
  let info := override level status secsleft info in
  call_render w (render_args info).

End Show.

(** ** The specification's vocabulary

    The definitions below follow the words of the specification; the
    theorems compare them with the code above. *)

Definition is_digit (c : pychar) : Prop := (48 <= c <= 57)%N.

(** The number that a string of decimal digits denotes. *)
Definition digits_value (s : pystr) : Z :=
  fold_left (fun acc c => 10 * acc + (Z.of_N c - 48)) s 0.

(** Two decimal places, as the specification writes minutes and seconds. *)
Definition two_digits (n : Z) : pystr := [digit (n / 10); digit (n mod 10)].

(** [H:MM:SS] as the specification words it: the hours without padding,
    minutes and seconds on two digits. *)
Definition hms (secs : Z) : pystr :=
  str_of_int (secs / 3600) ++ lit ":" ++ two_digits (secs / 60 mod 60)
    ++ lit ":" ++ two_digits (secs mod 60).

(** The day count that [timedelta] puts in front from one day on. *)
Definition day_count (days : Z) : pystr :=
  str_of_int days ++ (if days =? 1 then lit " day, " else lit " days, ").

(** [secs is None or secs < 0] *)
Definition absent_or_negative (secs : option Z) : Prop :=
  match secs with None => True | Some n => n < 0 end.

(** The status is present and its lower-case form starts with "charg". *)
Definition charging (status : option pystr) : Prop :=
  exists s rest, status = Some s /\ lower s = lit "charg" ++ rest.

(** The three hues of the specification, as the style names of the code. *)
Definition warning_hue : string := "red".
Definition caution_hue : string := "yellow".
Definition nominal_hue : string := "green".

(** The number of fill characters of a line. *)
Definition fill_count (line : pystr) : nat := length (filter (fun c => c = full_block) line).

(** The interior rows of the gauge: the lines 2 to 10. *)
Definition interior (lines : list pystr) : list pystr := take 9 (drop 2 lines).

(** The events of the filesystem source. *)
Definition sysfs_event (e : event) : bool :=
  match e with
  | EIsDir _ | EListDir _ | EExists _ | EOpen _ => true
  | _ => false
  end.

(** A reading holds an integer percent, a status text and an integer or
    [None] as the remaining seconds, each where it holds the field at all. *)
Definition reading_typed (d : dict) : Prop :=
  (forall v, d !! "percent" = Some v -> exists n, v = VInt n) /\
  (forall v, d !! "status" = Some v -> exists s, v = VStr s) /\
  (forall v, d !! "secs_left" = Some v -> v = VNone \/ exists n, v = VInt n).

(** [p] is an integer nearest to the number [x]. *)
Definition nearest_int (x : pynum) (p : Z) : Prop :=
  match x with
  | PInt n => p = n
  | PFloat f =>
      if 0 <=? expo f then p = mant f * 2 ^ expo f
      else Z.abs (2 * (p * 2 ^ (- expo f) - mant f)) <= 2 ^ (- expo f)
  end.

(** [None] as a value *)
Definition val_of_opt (o : option Z) : pyval :=
  match o with Some n => VInt n | None => VNone end.

(** A discharging battery at 93.125 percent with an hour and a half left,
    on a machine without /sys/class/power_supply and without a terminal. *)
Definition sample_battery : sbattery :=
  {| sb_percent := PFloat {| mant := 745; expo := -3 |};
     sb_secsleft := Some 5400;
     sb_power_plugged := Some false |}.

Definition sample_world : world :=
  {| psutil := Some (Ok (Some sample_battery)); power_supply := None;
     terminal_columns := None; console_write := fun _ _ => None |}.

(** The row after [text] is written over it from index [start] on. *)
Definition splice (row : pystr) (start : Z) (text : pystr) : pystr :=
  take (Z.to_nat start) row ++ text ++ drop (Z.to_nat start + length text) row.

(** A text without line boundaries. *)
Definition one_line (s : pystr) : Prop := Forall (fun c => is_linebreak c = false) s.

(** The lines of a block that [splitlines] gives back: none holds a line
    boundary and the last one is not empty. *)
Definition block_lines (ls : list pystr) : Prop :=
  Forall one_line ls /\ last ls <> Some [].

(** The left padding of [center_text_block] for a terminal of [cols]
    columns and a longest line of [m] characters. *)
Definition left_pad (cols m : Z) : Z := Z.max ((cols - m) / 2) 0.

(** The block that [render_battery] hands to the centering: the gauge with
    the three info lines behind its first three lines, after a gutter of
    three spaces. *)
Definition block_of (fc percent : Z) (status time : pystr) : list pystr :=
  let r := interior_row fc in
  [cap_line ++ lit "   " ++ lit "Status : " ++ status;
   top_border ++ lit "   " ++ lit "Charge : " ++ str_of_int percent ++ lit "%";
   r ++ lit "   " ++ lit "Time   : " ++ time;
   r; r; r;
   splice r (overlay_start (perc_text percent)) (perc_text percent);
   r; r; r; r; bottom_border].

(** A plugged-in battery that psutil reports as full, with unlimited
    remaining time. *)
Definition unlimited_battery : sbattery :=
  {| sb_percent := PInt 100;
     sb_secsleft := Some POWER_TIME_UNLIMITED;
     sb_power_plugged := Some true |}.

(** ** The filesystem source, as a search

    What the loop of [get_sys_battery] computes, without its effects. *)

(** The events of the filesystem source name the power-supply directory
    or a path below it. *)
Definition under_base (e : event) : Prop :=
  match e with
  | EIsDir p | EListDir p => p = base
  | EExists p | EOpen p => startswith p (base ++ lit "/") = true
  | _ => False
  end.

(** The entry is tried: its name starts with "bat" in any case, or it has
    a capacity file. *)
Definition is_candidate (name : pystr) (d : device) : bool :=
  startswith (lower name) (lit "bat")
  || match dev_capacity d with Absent => false | _ => true end.

(** The status of a device: "Unknown" without a status file or with a
    blank one; [None] when the file cannot be read. *)
Definition status_text (f : file) : option pystr :=
  match f with
  | Absent => Some (lit "Unknown")
  | Unreadable => None
  | Content s => Some (match strip s with [] => lit "Unknown" | st => st end)
  end.

Section SysSearch.

Variable int_of_str : pystr -> option Z.

(** The reading that the files of a device give, if they give one. *)
Definition content_reading (d : device) : option dict :=
  match dev_capacity d, status_text (dev_status d) with
  | Content c, Some st =>
      match int_of_str (strip c) with
      | Some n => Some (<["status" := VStr st]> (<["percent" := VInt n]> ∅))
      | None => None
      end
  | _, _ => None
  end.

Definition device_reading (name : pystr) (d : device) : option dict :=
  if is_candidate name d then content_reading d else None.

(** The reading of the first entry that gives one. *)
Fixpoint first_reading (entries : list (pystr * device)) : option dict :=
  match entries with
  | [] => None
  | (name, d) :: rest =>
      match device_reading name d with
      | Some r => Some r
      | None => first_reading rest
      end
  end.

End SysSearch.

(** A run of white space. *)
Definition blank (s : pystr) : Prop := Forall (fun c => is_space c = true) s.

(** The file with white space put around its content. *)
Definition pad_file (a b : pystr) (f : file) : file :=
  match f with
  | Content s => Content (a ++ s ++ b)
  | _ => f
  end.

(** The seconds that a text [H:MM:SS] stands for. *)
Definition clock_seconds (s : pystr) : Z :=
  let n := length s in
  3600 * digits_value (take (n - 6) s)
  + 60 * digits_value (take 2 (drop (n - 5) s))
  + digits_value (drop (n - 2) s).

(** What [console.print] gives back. *)
Definition console_result (o : option exn) : result unit :=
  match o with
  | Some e => Raise e
  | None => Ok tt
  end.

(** A Linux machine with psutil installed and without the directory
    /sys/class/power_supply: [psutil.sensors_battery()] lists that
    directory and raises [FileNotFoundError]. *)
Definition world_without_power_supply : world :=
  {| psutil := Some (Raise FileNotFoundError); power_supply := None;
     terminal_columns := Some 80; console_write := fun _ _ => None |}.

(** A machine without psutil on which /sys/class/power_supply is a
    directory that may not be listed. *)
Definition world_unlistable : world :=
  {| psutil := None; power_supply := Some (Raise PermissionError);
     terminal_columns := Some 80; console_write := fun _ _ => None |}.

(** psutil finds no battery; the directory lists one device, BAT0, at
    87 percent and full. *)
Definition sysfs_world : world :=
  {| psutil := Some (Ok None);
     power_supply :=
       Some (Ok [(lit "BAT0", {| dev_capacity := Content (lit "87");
                                 dev_status := Content (lit "Full") |})]);
     terminal_columns := Some 120; console_write := fun _ _ => None |}.

(** * Properties *)

(** ** Rounding arithmetic *)

Lemma rne_div_floor n d : n / d <= rne_div n d <= n / d + 1.
Proof.
  unfold rne_div. destruct (2 * (n mod d) ?= d); [destruct (Z.even _)| |]; lia.
Qed.

(** The rounded quotient is within one half of the exact one. *)
Lemma rne_div_nearest n d : 0 < d -> Z.abs (2 * (d * rne_div n d - n)) <= d.
Proof.
  intros Hd. unfold rne_div.
  pose proof (Z.div_mod n d ltac:(lia)) as E.
  pose proof (Z.mod_pos_bound n d Hd) as B.
  destruct (Z.compare_spec (2 * (n mod d)) d) as [C|C|C];
    [destruct (Z.even _)| |]; nia.
Qed.

Lemma float_exponent_le n d :
  float_exponent n d <= Z.max (Z.log2 n - Z.log2 d - 52) (-1074).
Proof.
  unfold float_exponent.
  repeat match goal with |- context [if ?b then _ else _] => destruct b end; lia.
Qed.

(** For a dividend below 2^52 the float quotient by 100 has at least six
    binary places, enough to keep it on the right side of every integer. *)
Lemma rne_div_scaled_100 n k :
  0 <= n -> 6 <= k -> rne_div (n * 2 ^ k) 100 / 2 ^ k = n / 100.
Proof.
  intros Hn Hk.
  assert (64 <= 2 ^ k) as HP.
  { change 64 with (2 ^ 6). apply Z.pow_le_mono_r; lia. }
  set (P := 2 ^ k) in *.
  assert (0 <= n * P) as HnP by (apply Z.mul_nonneg_nonneg; lia).
  pose proof (rne_div_nearest (n * P) 100 ltac:(lia)) as Hnear.
  pose proof (Z.div_mod n 100 ltac:(lia)) as E.
  pose proof (Z.mod_pos_bound n 100 ltac:(lia)) as B.
  set (q := n / 100) in *. set (r := n mod 100) in *.
  set (R := rne_div (n * P) 100) in *.
  assert (n * P = 100 * (q * P) + r * P) as E' by (rewrite E; ring).
  assert (0 <= r * P <= 99 * P) as Hr by nia.
  symmetry. apply Z.div_unique with (r := R - P * q); [left|ring].
  lia.
Qed.

Lemma int_true_div_100 a :
  Z.abs a < 2 ^ 52 ->
  rbind (true_div a 100) (fun x => Ok (int_of_float x)) = Ok (Z.quot a 100).
Proof.
  intros Ha. unfold true_div.
  change (100 =? 0) with false. cbv iota.
  destruct (Z.eqb_spec a 0) as [->|Hne]; [reflexivity|].
  change (Z.abs 100) with 100. change (Z.sgn 100) with 1.
  pose proof (float_exponent_le (Z.abs a) 100) as He.
  assert (Z.log2 (Z.abs a) < 52) as Hl by (apply Z.log2_lt_pow2; lia).
  change (Z.log2 100) with 6 in He.
  set (e := float_exponent (Z.abs a) 100) in *.
  assert (e <= -7) as He' by lia.
  destruct (Z.leb_spec 0 e) as [?|_]; [lia|].
  cbn [andb rbind]. unfold int_of_float. cbn [expo mant].
  destruct (Z.leb_spec 0 e) as [?|_]; [lia|].
  f_equal.
  set (m := rne_div (Z.abs a * 2 ^ (- e)) 100).
  assert (0 <= m) as Hm.
  { pose proof (rne_div_floor (Z.abs a * 2 ^ (- e)) 100) as F.
    assert (0 <= Z.abs a * 2 ^ (- e)) by (apply Z.mul_nonneg_nonneg; [lia|apply Z.pow_nonneg; lia]).
    pose proof (Z.div_pos (Z.abs a * 2 ^ (- e)) 100 ltac:(lia) ltac:(lia)).
    lia. }
  assert (m / 2 ^ (- e) = Z.abs a / 100) as Hq
    by (apply rne_div_scaled_100; lia).
  assert (0 < 2 ^ (- e)) as Hp by (apply Z.pow_pos_nonneg; lia).
  destruct (Z.abs_spec a) as [[Hpos Habs]|[Hneg Habs]]; rewrite Habs in *.
  - rewrite (Z.sgn_pos a) by lia. rewrite !Z.mul_1_l, Z.mul_1_r || rewrite !Z.mul_1_l.
    rewrite !Z.quot_div_nonneg by lia. exact Hq.
  - rewrite (Z.sgn_neg a) by lia.
    replace (-1 * 1 * m) with (- m) by lia.
    rewrite Z.quot_opp_l by lia.
    rewrite <- (Z.opp_involutive a) at 1. rewrite (Z.quot_opp_l (- a)) by lia.
    rewrite !Z.quot_div_nonneg by lia. lia.
Qed.

Lemma fill_cols_quot percent :
  - 10 ^ 14 <= percent <= 10 ^ 14 ->
  fill_cols percent = Ok (Z.quot (percent * 28) 100).
Proof.
  intros H. unfold fill_cols, width. apply int_true_div_100.
  assert (10 ^ 14 * 28 < 2 ^ 52) by reflexivity. lia.
Qed.

(** ** Strings and decimal text: lemmas *)

Lemma len_app {A} (l k : list A) : len (l ++ k) = len l + len k.
Proof. unfold len. rewrite length_app. lia. Qed.

Lemma len_nonneg {A} (l : list A) : 0 <= len l.
Proof. unfold len. lia. Qed.

Lemma str_mul_char_length c n : length (str_mul [c] n) = Z.to_nat n.
Proof.
  unfold str_mul. induction (Z.to_nat n) as [|k IH]; [reflexivity|].
  cbn. f_equal. exact IH.
Qed.

Lemma str_mul_char c n : str_mul [c] n = replicate (Z.to_nat n) c.
Proof.
  unfold str_mul. induction (Z.to_nat n) as [|k IH]; [reflexivity|].
  cbn. f_equal. exact IH.
Qed.

Lemma startswith_prefix s p :
  startswith s p = true <-> exists rest, s = p ++ rest.
Proof.
  revert s. induction p as [|b p IH]; intros s; cbn.
  - split; [intros _; exists s; reflexivity | reflexivity].
  - destruct s as [|a s].
    + split; [discriminate | intros [rest E]; discriminate].
    + rewrite andb_true_iff, N.eqb_eq, IH. split.
      * intros [-> [rest ->]]. exists rest. reflexivity.
      * intros [rest E]. injection E as -> ->. split; [reflexivity | eauto].
Qed.

Lemma split_dot_first_id s :
  Forall (fun c => c <> 46%N) s -> split_dot_first s = s.
Proof.
  induction 1 as [|c s Hc _ IH]; [reflexivity|].
  cbn. destruct (N.eqb_spec c 46); [contradiction|]. f_equal. exact IH.
Qed.

Lemma digit_is_digit n : is_digit (digit (n mod 10)).
Proof.
  unfold is_digit, digit. pose proof (Z.mod_pos_bound n 10 ltac:(lia)). lia.
Qed.

Lemma digits_go_digits fuel : forall n acc,
  Forall is_digit acc -> Forall is_digit (digits_go fuel n acc).
Proof.
  induction fuel as [|f IH]; intros n acc Hacc; cbn; [exact Hacc|].
  destruct (n <? 10); [|apply IH]; constructor; auto using digit_is_digit.
Qed.

Lemma digits_digits n : Forall is_digit (digits n).
Proof. apply digits_go_digits. constructor. Qed.

(** A number below [10 ^ k] has at most [k] digits, whatever the fuel. *)
Lemma digits_go_length fuel : forall (k : nat) n acc,
  (1 <= k)%nat -> 0 <= n < 10 ^ Z.of_nat k ->
  (length (digits_go fuel n acc) <= k + length acc)%nat.
Proof.
  induction fuel as [|f IH]; intros k n acc Hk Hn; cbn; [lia|].
  destruct (Z.ltb_spec n 10) as [Hlt|Hge]; [cbn; lia|].
  destruct k as [|[|k]]; [lia|cbn in Hn; lia|].
  specialize (IH (S k) (n / 10) (digit (n mod 10) :: acc) ltac:(lia)).
  cbn [length] in IH. etransitivity; [apply IH|lia].
  split; [apply Z.div_pos; lia|].
  apply Z.div_lt_upper_bound; [lia|].
  replace (Z.of_nat (S (S k))) with (Z.succ (Z.of_nat (S k))) in Hn by lia.
  rewrite Z.pow_succ_r in Hn by lia. lia.
Qed.

Lemma digits_length (k : nat) n :
  (1 <= k)%nat -> 0 <= n < 10 ^ Z.of_nat k -> (length (digits n) <= k)%nat.
Proof.
  intros Hk Hn. pose proof (digits_go_length (S (Z.to_nat (Z.log2 n))) k n [] Hk Hn).
  cbn [length] in *. unfold digits. lia.
Qed.

Lemma str_of_int_length (k : nat) n :
  (1 <= k)%nat -> - 10 ^ Z.of_nat k < n < 10 ^ Z.of_nat k ->
  (length (str_of_int n) <= S k)%nat.
Proof.
  intros Hk Hn. unfold str_of_int. destruct (Z.ltb_spec n 0).
  - cbn [length]. pose proof (digits_length k (- n) Hk ltac:(lia)). lia.
  - pose proof (digits_length k n Hk ltac:(lia)). lia.
Qed.

Lemma str_of_int_no_dot n : Forall (fun c => c <> 46%N) (str_of_int n).
Proof.
  unfold str_of_int.
  assert (forall m, Forall (fun c => c <> 46%N) (digits m)) as D.
  { intros m. eapply Forall_impl; [apply digits_digits|]. unfold is_digit. cbn. lia. }
  destruct (n <? 0); [constructor; [lia|]|]; apply D.
Qed.

Lemma digits_lt_10 n : 0 <= n < 10 -> digits n = [digit n].
Proof.
  intros H. unfold digits. cbn [digits_go].
  destruct (Z.ltb_spec n 10); [|lia]. rewrite Z.mod_small by lia. reflexivity.
Qed.

Lemma digits_lt_100 n : 10 <= n < 100 -> digits n = two_digits n.
Proof.
  intros H. unfold digits.
  assert (3 <= Z.log2 n) as Hl by (change 3 with (Z.log2 10); apply Z.log2_le_mono; lia).
  destruct (Z.to_nat (Z.log2 n)) as [|f] eqn:E; [lia|].
  cbn [digits_go].
  destruct (Z.ltb_spec n 10); [lia|].
  destruct (Z.ltb_spec (n / 10) 10) as [_|Hge].
  - rewrite (Z.mod_small (n / 10)); [reflexivity|].
    split; [apply Z.div_pos; lia | apply Z.div_lt_upper_bound; lia].
  - exfalso. assert (n / 10 < 10) by (apply Z.div_lt_upper_bound; lia). lia.
Qed.

Lemma fmt_02d_two_digits n : 0 <= n < 100 -> fmt_02d n = two_digits n.
Proof.
  intros H. unfold fmt_02d. destruct (Z.ltb_spec n 0); [lia|].
  destruct (Z.ltb_spec n 10) as [Hlt|Hge].
  - rewrite digits_lt_10 by lia. unfold two_digits.
    rewrite Z.div_small, Z.mod_small by lia. reflexivity.
  - rewrite digits_lt_100 by lia. reflexivity.
Qed.

Lemma two_digits_no_dot n : Forall (fun c => c <> 46%N) (two_digits (n mod 60)).
Proof.
  pose proof (Z.mod_pos_bound n 60 ltac:(lia)) as B.
  assert (0 <= n mod 60 / 10 < 10) as B'
    by (split; [apply Z.div_pos; lia | apply Z.div_lt_upper_bound; lia]).
  pose proof (Z.mod_pos_bound (n mod 60) 10 ltac:(lia)).
  unfold two_digits, digit. repeat constructor; lia.
Qed.

(** ** Decimal text denotes its number *)

Lemma fold_digits_app s : forall a,
  fold_left (fun acc c => 10 * acc + (Z.of_N c - 48)) s a
  = a * 10 ^ len s + digits_value s.
Proof.
  unfold digits_value.
  induction s as [|c s IH]; intros a; cbn [fold_left].
  - unfold len. cbn. lia.
  - rewrite IH, (IH (10 * 0 + _)).
    replace (len (c :: s)) with (Z.succ (len s)) by (unfold len; cbn [length]; lia).
    rewrite Z.pow_succ_r by apply len_nonneg. ring.
Qed.

Lemma digits_value_cons c s :
  digits_value (c :: s) = (Z.of_N c - 48) * 10 ^ len s + digits_value s.
Proof.
  unfold digits_value at 1. cbn [fold_left]. rewrite fold_digits_app.
  reflexivity.
Qed.

(** With fuel for every bit of [n], the loop writes all of [n] in front of
    the digits it has. *)
Lemma digits_go_value fuel : forall n acc,
  0 <= n < 2 ^ Z.of_nat fuel ->
  digits_value (digits_go fuel n acc) = n * 10 ^ len acc + digits_value acc.
Proof.
  induction fuel as [|f IH]; intros n acc Hn; cbn [digits_go].
  - cbn in Hn. replace n with 0 by lia. lia.
  - assert (Z.of_N (digit (n mod 10)) - 48 = n mod 10) as Hd.
    { unfold digit. pose proof (Z.mod_pos_bound n 10 ltac:(lia)). lia. }
    destruct (Z.ltb_spec n 10) as [Hlt|Hge].
    + rewrite digits_value_cons, Hd, Z.mod_small by lia. reflexivity.
    + rewrite IH.
      * rewrite digits_value_cons, Hd.
        replace (len (digit (n mod 10) :: acc)) with (Z.succ (len acc))
          by (unfold len; cbn [length]; lia).
        rewrite Z.pow_succ_r by apply len_nonneg.
        pose proof (Z.div_mod n 10 ltac:(lia)) as E.
        rewrite E at 3. ring.
      * split; [apply Z.div_pos; lia|].
        apply Z.div_lt_upper_bound; [lia|].
        replace (Z.of_nat (S f)) with (Z.succ (Z.of_nat f)) in Hn by lia.
        rewrite Z.pow_succ_r in Hn by lia. lia.
Qed.

Lemma digits_denote n : 0 <= n -> digits_value (digits n) = n.
Proof.
  intros Hn. unfold digits. rewrite digits_go_value.
  - unfold len. cbn. lia.
  - split; [exact Hn|].
    destruct (Z.eq_dec n 0) as [->|Hne]; [reflexivity|].
    replace (Z.of_nat (S (Z.to_nat (Z.log2 n)))) with (Z.succ (Z.log2 n))
      by (pose proof (Z.log2_nonneg n); lia).
    apply Z.log2_spec. lia.
Qed.

(** ** The clock format *)

Lemma hms_no_dot secs : Forall (fun c => c <> 46%N) (hms secs).
Proof.
  unfold hms. repeat apply Forall_app_2;
    auto using str_of_int_no_dot, two_digits_no_dot; repeat constructor; cbn; lia.
Qed.

Lemma timedelta_str_day secs :
  0 <= secs < 86400 -> timedelta_str secs = Ok (hms secs).
Proof.
  intros H. unfold timedelta_str.
  rewrite Z.div_small, Z.mod_small by lia. cbn [Z.abs Z.ltb Z.compare Z.eqb].
  rewrite !fmt_02d_two_digits.
  - unfold hms. rewrite Z.div_div by lia. reflexivity.
  - pose proof (Z.mod_pos_bound secs 60 ltac:(lia)). lia.
  - pose proof (Z.mod_pos_bound (secs / 60) 60 ltac:(lia)). lia.
Qed.

Lemma timedelta_str_days secs :
  86400 <= secs < 86400 * 10 ^ 9 ->
  timedelta_str secs = Ok (day_count (secs / 86400) ++ hms (secs mod 86400)).
Proof.
  intros H. unfold timedelta_str.
  assert (1 <= secs / 86400 < 10 ^ 9) as Hd.
  { split; [apply Z.div_le_lower_bound; lia | apply Z.div_lt_upper_bound; lia]. }
  pose proof (Z.mod_pos_bound secs 86400 ltac:(lia)) as Hs.
  set (days := secs / 86400) in *. set (seconds := secs mod 86400) in *.
  rewrite Z.abs_eq by lia.
  destruct (Z.ltb_spec 999999999 days) as [Hbig|_]; [change (10 ^ 9) with 1000000000 in Hd; lia|].
  destruct (Z.eqb_spec days 0) as [?|_]; [lia|].
  rewrite !fmt_02d_two_digits.
  - unfold hms, day_count. rewrite Z.div_div by lia. change (60 * 60) with 3600.
    destruct (days =? 1); rewrite <- ?app_assoc; reflexivity.
  - pose proof (Z.mod_pos_bound seconds 60 ltac:(lia)). lia.
  - pose proof (Z.mod_pos_bound (seconds / 60) 60 ltac:(lia)). lia.
Qed.

(** C2, as amended.  For [0 <= secs < 86400], [format_time] returns
    [H:MM:SS] (hours without padding, minutes and seconds on two digits) for
    every status; the hours are not unbounded: from 86400 seconds on the text
    is the day count ("1 day, ", "N days, ") followed by the [H:MM:SS] of the
    rest of the day.  In particular [format_time(3661, anything)] is
    "1:01:01". *)
Theorem format_time_clock :
  (forall secs status, 0 <= secs < 86400 ->
     format_time (Some secs) status = Ok (hms secs)) /\
  (forall secs status, 86400 <= secs < 86400 * 10 ^ 9 ->
     format_time (Some secs) status
     = Ok (day_count (secs / 86400) ++ hms (secs mod 86400))) /\
  (forall status, format_time (Some 3661) status = Ok (lit "1:01:01")).
Proof.
  assert (forall secs status, 0 <= secs < 86400 ->
            format_time (Some secs) status = Ok (hms secs)) as Hday.
  { intros secs status H. unfold format_time.
    destruct (Z.ltb_spec secs 0); [lia|].
    rewrite timedelta_str_day by lia. cbn [rbind].
    rewrite split_dot_first_id by apply hms_no_dot. reflexivity. }
  split; [exact Hday|split].
  - intros secs status H. unfold format_time.
    destruct (Z.ltb_spec secs 0); [lia|].
    rewrite timedelta_str_days by lia. cbn [rbind].
    rewrite split_dot_first_id; [reflexivity|].
    apply Forall_app_2; [|apply hms_no_dot].
    unfold day_count. apply Forall_app_2; [apply str_of_int_no_dot|].
    destruct (_ =? 1); repeat constructor; cbn; lia.
  - intros status. rewrite Hday by lia. reflexivity.
Qed.

Lemma format_time_clock_witness :
  format_time (Some 7325) (Some (lit "Full")) = Ok (lit "2:02:05") /\
  format_time (Some 90061) None = Ok (lit "1 day, 1:01:01").
Proof.
  split.
  - apply (proj1 format_time_clock 7325 (Some (lit "Full"))). lia.
  - apply (proj1 (proj2 format_time_clock) 90061 None). lia.
Defined.

(** C2 as stated fails from one day on: for 86400 seconds the claim's
    format with unbounded hours is "24:00:00", the code returns
    "1 day, 0:00:00". *)
Lemma format_time_clock_cex :
  hms 86400 = lit "24:00:00" /\
  format_time (Some 86400) None = Ok (lit "1 day, 0:00:00") /\
  format_time (Some 86400) None <> Ok (hms 86400).
Proof. split; [reflexivity|]. split; [reflexivity|discriminate]. Qed.

Lemma charging_test status :
  truthy_str status && startswith (lower (default [] status)) (lit "charg") = true
  <-> charging status.
Proof.
  unfold charging. rewrite andb_true_iff, startswith_prefix. split.
  - intros [Ht [rest E]]. destruct status as [s|]; [|discriminate]. eauto.
  - intros (s & rest & -> & E). cbn [default]. split; [|eauto].
    destruct s; [discriminate|reflexivity].
Qed.

(** C5.  With [secs] absent or negative, [format_time] returns
    "Charging..." when the status is present and its lower-case form starts
    with "charg", and "Unknown" otherwise; in particular for
    [(None, None)], for [None] with "Charging" in any case, and for
    [(-5, "Discharging")]. *)
Theorem format_time_unknown :
  (forall secs status, absent_or_negative secs ->
     (charging status -> format_time secs status = Ok (lit "Charging...")) /\
     (~ charging status -> format_time secs status = Ok (lit "Unknown"))) /\
  format_time None None = Ok (lit "Unknown") /\
  (forall s, lower s = lit "charging" ->
     format_time None (Some s) = Ok (lit "Charging...")) /\
  format_time (Some (-5)) (Some (lit "Discharging")) = Ok (lit "Unknown").
Proof.
  assert (forall secs status, absent_or_negative secs ->
     (charging status -> format_time secs status = Ok (lit "Charging...")) /\
     (~ charging status -> format_time secs status = Ok (lit "Unknown"))) as G.
  { intros secs status Hs.
    assert (format_time secs status =
            if truthy_str status && startswith (lower (default [] status)) (lit "charg")
            then Ok (lit "Charging...") else Ok (lit "Unknown")) as ->.
    { unfold format_time. destruct secs as [n|]; [|reflexivity].
      cbn in Hs. destruct (Z.ltb_spec n 0); [reflexivity|lia]. }
    pose proof (charging_test status) as T.
    destruct (truthy_str status && _); split; intros H; try reflexivity.
    - destruct H. apply T. reflexivity.
    - apply T in H. discriminate. }
  split; [exact G|]. split; [reflexivity|]. split; [|reflexivity].
  intros s Hs. apply (G None (Some s) I).
  exists s, (lit "ing"). rewrite Hs. split; reflexivity.
Qed.

Lemma format_time_unknown_witness :
  format_time (Some (-1)) (Some (lit "CHARGING")) = Ok (lit "Charging...") /\
  format_time None (Some (lit "cHaRgInG")) = Ok (lit "Charging...").
Proof.
  split.
  - apply (proj1 format_time_unknown (Some (-1)) (Some (lit "CHARGING"))).
    + cbn. lia.
    + exists (lit "CHARGING"), (lit "ing"). split; reflexivity.
  - apply (proj1 (proj2 (proj2 format_time_unknown))). reflexivity.
Defined.

(** ** Colors *)

(** C7.  The color is the warning hue exactly when [percent < 20], the
    caution hue exactly when [20 <= percent < 60], the nominal hue exactly
    when [60 <= percent]. *)
Theorem color_thresholds percent :
  (color_for_percent percent = warning_hue <-> percent < 20) /\
  (color_for_percent percent = caution_hue <-> 20 <= percent < 60) /\
  (color_for_percent percent = nominal_hue <-> 60 <= percent).
Proof.
  unfold color_for_percent, warning_hue, caution_hue, nominal_hue.
  destruct (Z.ltb_spec percent 20); [|destruct (Z.ltb_spec percent 60)];
    repeat split; intros; try lia; try discriminate; reflexivity.
Qed.

(** ** The gauge *)

(** C1 as stated fails at [percent = -1]: the floor of -28/100 is -1, the
    code truncates toward zero and fills 0 columns, a count inside [0,28]
    for a negative percent. *)
Lemma fill_cols_floor_cex :
  -1 * 28 / 100 = -1 /\ fill_cols (-1) = Ok 0 /\
  fill_cols (-1) <> Ok (-1 * 28 / 100) /\ -1 < 0 /\ 0 <= 0 <= 28.
Proof.
  split; [reflexivity|]. split; [vm_compute; reflexivity|].
  split; [vm_compute; discriminate|lia].
Qed.

(** A percent just above 100 still gives a count inside [0,28]; very large
    values raise [OverflowError] in the float division. *)
Example fill_cols_101 : fill_cols 101 = Ok 28.
Proof. vm_compute. reflexivity. Qed.

Example fill_cols_overflow : fill_cols (10 ^ 400) = Raise OverflowError.
Proof. vm_compute. reflexivity. Qed.

(** C1, as amended.  For every percent of at most 10^14 in absolute value
    (where the float quotient has the integer part of the exact one), the
    filled-column count is percent * 28 / 100 truncated toward zero, the
    floor for a percent that is not negative; it is not clamped: it exceeds
    28 exactly from percent 104 on and is negative exactly from -4 down. *)
Theorem fill_cols_truncates percent :
  - 10 ^ 14 <= percent <= 10 ^ 14 ->
  exists fc, fill_cols percent = Ok fc /\
    fc = Z.quot (percent * 28) 100 /\
    (0 <= percent -> fc = percent * 28 / 100) /\
    (28 < fc <-> 104 <= percent) /\
    (fc < 0 <-> percent <= -4).
Proof.
  intros H. exists (Z.quot (percent * 28) 100).
  split; [apply fill_cols_quot; exact H|]. split; [reflexivity|].
  split; [intros Hp; apply Z.quot_div_nonneg; lia|].
  destruct (Z.le_gt_cases 0 percent) as [Hp|Hp].
  - rewrite Z.quot_div_nonneg by lia.
    pose proof (Z.div_mod (percent * 28) 100 ltac:(lia)).
    pose proof (Z.mod_pos_bound (percent * 28) 100 ltac:(lia)). lia.
  - replace (percent * 28) with (- (- percent * 28)) by ring.
    rewrite Z.quot_opp_l by lia. rewrite Z.quot_div_nonneg by lia.
    pose proof (Z.div_mod (- percent * 28) 100 ltac:(lia)).
    pose proof (Z.mod_pos_bound (- percent * 28) 100 ltac:(lia)). lia.
Qed.

Lemma fill_cols_truncates_witness :
  exists fc, fill_cols 250 = Ok fc /\ fc = Z.quot (250 * 28) 100 /\
    (0 <= 250 -> fc = 250 * 28 / 100) /\ (28 < fc <-> 104 <= 250) /\
    (fc < 0 <-> 250 <= -4).
Proof. apply (fill_cols_truncates 250). lia. Defined.

(** C6 as stated fails in the middle row: the percent text overwrites two
    of its 14 fill characters. *)
Lemma gauge_50_mid_row_cex :
  exists lines row, gauge_lines 50 = Ok lines /\ lines !! 6%nat = Some row /\
    fill_count row = 12%nat /\ 50 * 28 / 100 = 14.
Proof.
  eexists _, _. split; [vm_compute; reflexivity|].
  split; [reflexivity|]. split; [vm_compute; reflexivity|reflexivity].
Qed.

(** C6, as amended.  For percent 50 the text "50%" is written in the
    middle interior row (interior row 9 / 2 = 4, line 6) from column 13 on,
    which leaves 12 interior cells on its left and 13 on its right; the
    fill-character count is 14 in each of the other eight interior rows and,
    before the text is written, in all nine; in the middle row 12 fill
    characters remain. *)
Theorem gauge_50 :
  exists lines,
    gauge_lines 50 = Ok lines /\
    map fill_count (interior (box_lines 14)) = replicate 9 14%nat /\
    map fill_count (interior lines) = [14; 14; 14; 14; 12; 14; 14; 14; 14]%nat /\
    interior lines !! Z.to_nat (height / 2)
    = Some ([box_v] ++ replicate 12 full_block ++ lit "50%"
              ++ replicate 13 32%N ++ [box_v]) /\
    Forall (fun row => take 3 (drop 13 row) <> lit "50%")
           (delete (Z.to_nat mid) lines).
Proof.
  eexists. split; [vm_compute; reflexivity|].
  split; [vm_compute; reflexivity|]. split; [vm_compute; reflexivity|].
  split; [vm_compute; reflexivity|].
  vm_compute. repeat constructor; discriminate.
Qed.

(** ** The geometry of the gauge *)

Lemma setitem_ok {A} (l : list A) i x :
  0 <= i < len l -> setitem l i x = Ok (<[Z.to_nat i := x]> l).
Proof.
  intros H. unfold setitem.
  destruct (Z.leb_spec 0 i); [|lia]. destruct (Z.ltb_spec i (len l)); [|lia].
  reflexivity.
Qed.

Lemma getitem_ok {A} (l : list A) i x :
  0 <= i -> l !! Z.to_nat i = Some x -> getitem l i = Ok x.
Proof.
  intros Hi Hl. unfold getitem.
  pose proof (lookup_lt_Some _ _ _ Hl) as Hlt.
  destruct (Z.ltb_spec i 0); [lia|].
  destruct (Z.leb_spec 0 i); [|lia].
  destruct (Z.ltb_spec i (len l)) as [_|Hge]; [|unfold len in Hge; lia].
  cbn [andb]. rewrite Hl. reflexivity.
Qed.

(** Writing a text that fits into the row succeeds and keeps the length of
    the row. *)
Lemma overlay_ok text : forall row start,
  0 <= start -> start + len text <= len row ->
  exists row', overlay row start text = Ok row' /\ length row' = length row.
Proof.
  induction text as [|ch text IH]; intros row start H0 H1; cbn [overlay].
  - eauto.
  - unfold len in H1. cbn [length] in H1.
    rewrite setitem_ok by (unfold len; lia). cbn [rbind].
    destruct (IH (<[Z.to_nat start := ch]> row) (start + 1)) as (row' & E & L).
    + lia.
    + unfold len. rewrite length_insert. lia.
    + exists row'. split; [exact E|]. rewrite L. apply length_insert.
Qed.

Lemma interior_row_length fc :
  length (interior_row fc) = (2 + Z.to_nat fc + Z.to_nat (width - fc))%nat.
Proof.
  unfold interior_row. rewrite !length_app, !str_mul_char_length. cbn [length]. lia.
Qed.

Lemma box_lines_rows fc :
  box_lines fc =
  let r := interior_row fc in
  [cap_line; top_border; r; r; r; r; r; r; r; r; r; bottom_border].
Proof. reflexivity. Qed.

Lemma frame_lengths :
  length cap_line = 30%nat /\ length top_border = 30%nat
  /\ length bottom_border = 30%nat.
Proof. repeat split; vm_compute; reflexivity. Qed.

(** Whenever the fill count is computed and the percent text is not longer
    than the interior, the gauge is the box with a middle row of unchanged
    length. *)
Lemma gauge_lines_ok percent fc :
  fill_cols percent = Ok fc -> len (perc_text percent) <= width ->
  exists row, gauge_lines percent = Ok (<[6%nat := row]> (box_lines fc))
    /\ length row = length (interior_row fc).
Proof.
  intros Hfc Hlen. unfold gauge_lines. rewrite Hfc. cbn [rbind].
  rewrite (getitem_ok (box_lines fc) mid (interior_row fc)) by (try reflexivity; vm_compute; discriminate).
  cbn [rbind].
  pose proof (len_nonneg (perc_text percent)) as Hnn.
  pose proof (interior_row_length fc) as Hrow.
  assert (0 <= (width - len (perc_text percent)) / 2) as Hdiv by (apply Z.div_pos; lia).
  assert (2 * ((width - len (perc_text percent)) / 2) <= width - len (perc_text percent)) as Hhalf
    by (apply Z.mul_div_le; lia).
  destruct (overlay_ok (perc_text percent) (interior_row fc)
              (overlay_start (perc_text percent))) as (row & E & L).
  - unfold overlay_start. lia.
  - unfold overlay_start, len in *. unfold width in *. lia.
  - exists row. rewrite E. cbn [rbind]. split; [|exact L].
    rewrite setitem_ok; [reflexivity|]. rewrite box_lines_rows. vm_compute. split; discriminate || reflexivity.
Qed.

Lemma perc_text_length (k : nat) percent :
  (1 <= k)%nat -> - 10 ^ Z.of_nat k < percent < 10 ^ Z.of_nat k ->
  len (perc_text percent) <= Z.of_nat k + 2.
Proof.
  intros Hk H. unfold perc_text, len. rewrite length_app.
  pose proof (str_of_int_length k percent Hk H). cbn [length lit map list_ascii_of_string]. lia.
Qed.

(** C10.  For every percent in [0,100] the filled-column count lies in
    [0,28], and each of the twelve lines of the gauge (the cap, the two
    borders and the nine interior rows, the one with the percent text
    included) has exactly 30 characters before the info text is appended. *)
Theorem gauge_aligned percent :
  0 <= percent <= 100 ->
  exists fc lines,
    fill_cols percent = Ok fc /\ 0 <= fc <= 28 /\
    gauge_lines percent = Ok lines /\
    length lines = 12%nat /\
    Forall (fun line => length line = 30%nat) lines.
Proof.
  intros H.
  assert (fill_cols percent = Ok (percent * 28 / 100)) as Hfc.
  { rewrite fill_cols_quot, Z.quot_div_nonneg by (change (10 ^ 14) with 100000000000000; lia).
    reflexivity. }
  set (fc := percent * 28 / 100) in *.
  assert (0 <= fc <= 28) as Hb.
  { subst fc. split; [apply Z.div_pos; lia|].
    apply Z.div_le_upper_bound; lia. }
  destruct (gauge_lines_ok percent fc Hfc) as (row & E & L).
  { pose proof (perc_text_length 3 percent ltac:(lia)) as P.
    change (10 ^ Z.of_nat 3) with 1000 in P. unfold width. lia. }
  exists fc, (<[6%nat := row]> (box_lines fc)).
  split; [exact Hfc|]. split; [exact Hb|]. split; [exact E|].
  assert (length (interior_row fc) = 30%nat) as R
    by (rewrite interior_row_length; unfold width; lia).
  rewrite R in L. destruct frame_lengths as (C & T & B).
  rewrite box_lines_rows. cbn [list_insert insert]. split; [reflexivity|].
  repeat constructor; assumption.
Qed.

Lemma gauge_aligned_witness :
  exists fc lines,
    fill_cols 42 = Ok fc /\ 0 <= fc <= 28 /\
    gauge_lines 42 = Ok lines /\
    length lines = 12%nat /\
    Forall (fun line => length line = 30%nat) lines.
Proof. apply (gauge_aligned 42). lia. Defined.

(** ** The scenario of the specification *)

(** [--level 15 --status Discharging --secs 120]: four filled columns, the
    three info lines, the warning hue. *)
Example scenario_15 :
  fill_cols 15 = Ok 4 /\
  info_lines 15 (lit "Discharging") (Some 120)
  = Ok [lit "Status : Discharging"; lit "Charge : 15%"; lit "Time   : 0:02:00"] /\
  color_for_percent 15 = warning_hue.
Proof. repeat split; vm_compute; reflexivity. Qed.

(** ** The battery sources *)

Ltac run_M :=
  unfold run, mbind, M_bind, mret, M_ret, tell, raise, lift, try_except in *;
  cbn beta iota in *.

Lemma py_round_nearest x : nearest_int x (py_round x).
Proof.
  destruct x as [n|[m e]]; cbn; [reflexivity|].
  unfold round_float. cbn [expo mant]. destruct (Z.leb_spec 0 e); [reflexivity|].
  assert (0 < 2 ^ (- e)) as Hp by (apply Z.pow_pos_nonneg; lia).
  pose proof (rne_div_nearest (Z.abs m) (2 ^ (- e)) Hp) as N.
  set (P := 2 ^ (- e)) in *. set (R := rne_div (Z.abs m) P) in *.
  destruct (Z.abs_spec m) as [[Hm Ha]|[Hm Ha]]; rewrite Ha in N.
  - destruct (Z.eq_dec m 0) as [->|Hne]; [cbn in *; lia|].
    rewrite Z.sgn_pos by lia. lia.
  - rewrite Z.sgn_neg by lia. lia.
Qed.

Lemma reading_typed_empty : reading_typed ∅.
Proof. repeat split; intros v H; rewrite lookup_empty in H; discriminate. Qed.

Lemma reading_typed_insert_percent n d :
  reading_typed d -> reading_typed (<["percent" := VInt n]> d).
Proof.
  intros (P & S & T). repeat split; intros v H.
  - rewrite lookup_insert_eq in H. injection H as <-. eauto.
  - rewrite lookup_insert_ne in H by done. eauto.
  - rewrite lookup_insert_ne in H by done. eauto.
Qed.

Lemma reading_typed_insert_status s d :
  reading_typed d -> reading_typed (<["status" := VStr s]> d).
Proof.
  intros (P & S & T). repeat split; intros v H.
  - rewrite lookup_insert_ne in H by done. eauto.
  - rewrite lookup_insert_eq in H. injection H as <-. eauto.
  - rewrite lookup_insert_ne in H by done. eauto.
Qed.

Lemma reading_typed_insert_secs o d :
  reading_typed d -> reading_typed (<["secs_left" := val_of_opt o]> d).
Proof.
  intros (P & S & T). repeat split; intros v H.
  - rewrite lookup_insert_ne in H by done. eauto.
  - rewrite lookup_insert_ne in H by done. eauto.
  - rewrite lookup_insert_eq in H. injection H as <-. destruct o; cbn; eauto.
Qed.

Lemma truthy_insert k v (d : dict) : truthy (Some (<[k := v]> d)) = true.
Proof. cbn. apply bool_decide_eq_true_2, insert_non_empty. Qed.

(** The metrics source touches no file; it returns a reading when psutil
    reports a battery, [None] when psutil is missing or reports none, and
    raises what [sensors_battery] raises. *)
Lemma get_psutil_battery_result w t :
  exists r evs, get_psutil_battery w t = (r, t ++ evs) /\
    Forall (fun e => sysfs_event e = false) evs /\
    match r with
    | Ok (Some d) =>
        truthy (Some d) = true /\ reading_typed d
        /\ exists b, psutil w = Some (Ok (Some b))
    | Ok None => psutil w = None \/ psutil w = Some (Ok None)
    | Raise e => psutil w = Some (Raise e)
    end.
Proof.
  unfold get_psutil_battery. run_M.
  destruct (psutil w) as [[[b|]|e]|].
  - eexists (Ok (Some _)), [EImportPsutil; ESensorsBattery].
    rewrite <- app_assoc. split; [reflexivity|]. split; [repeat constructor|].
    split; [apply truthy_insert|]. split; [|eauto].
    replace (match sb_secsleft b with
             | Some s => if s =? -1 then VNone else VInt s
             | None => VNone
             end)
      with (val_of_opt (match sb_secsleft b with
                        | Some s => if s =? -1 then None else Some s
                        | None => None end))
      by (destruct (sb_secsleft b) as [s|]; [destruct (s =? -1)|]; reflexivity).
    apply reading_typed_insert_secs, reading_typed_insert_status,
      reading_typed_insert_percent, reading_typed_empty.
  - exists (Ok None), [EImportPsutil; ESensorsBattery].
    rewrite <- app_assoc. split; [reflexivity|]. split; [repeat constructor|]. auto.
  - exists (Raise e), [EImportPsutil; ESensorsBattery].
    rewrite <- app_assoc. split; [reflexivity|]. split; [repeat constructor|]. auto.
  - exists (Ok None), [EImportPsutil]. split; [reflexivity|].
    split; [repeat constructor|]. auto.
Qed.

Section SysBatteryProps.

Variable int_of_str : pystr -> option Z.

(** A device gives a reading of percent and status, or raises. *)
Lemma read_device_result path d t :
  exists r t', read_device int_of_str path d t = (r, t') /\
    match r with
    | Ok b => exists dd, b = Some dd /\ truthy b = true /\ reading_typed dd
                         /\ dd !! "secs_left" = None
    | Raise _ => True
    end.
Proof.
  unfold read_device, readf, py_int. run_M.
  destruct (dev_capacity d) as [| |c]; destruct (dev_status d) as [| |s];
    try (eexists (Raise _), _; split; [reflexivity|exact I]);
    destruct (int_of_str (strip c)) as [n|];
    try (eexists (Raise _), _; split; [reflexivity|exact I]);
    (eexists (Ok _), _; split; [reflexivity|]; eexists; split; [reflexivity|];
     split; [apply truthy_insert|]; split;
     [apply reading_typed_insert_status, reading_typed_insert_percent,
        reading_typed_empty
     |rewrite !lookup_insert_ne by done; apply lookup_empty]).
Qed.

(** Every exception inside the loop is caught: the scan never raises. *)
Lemma scan_devices_total entries : forall t,
  exists b t', scan_devices int_of_str entries t = (Ok b, t') /\
    match b with
    | Some d => truthy b = true /\ reading_typed d /\ d !! "secs_left" = None
    | None => True
    end.
Proof.
  induction entries as [|[name d] rest IH]; intros t; cbn [scan_devices].
  - exists None, t. split; [reflexivity|exact I].
  - assert (forall t0, exists b t',
      try_except (read_device int_of_str (path_join base name) d)
        (scan_devices int_of_str rest) t0 = (Ok b, t') /\
      match b with
      | Some d => truthy b = true /\ reading_typed d /\ d !! "secs_left" = None
      | None => True
      end) as Htry.
    { intros t0. unfold try_except.
      destruct (read_device_result (path_join base name) d t0) as (r & t' & -> & Hr).
      destruct r as [b|e]; [|apply IH].
      destruct Hr as (dd & -> & Hdd). exists (Some dd), t'. split; [reflexivity|exact Hdd]. }
    unfold exists_file, mbind, M_bind, mret, M_ret, tell. cbn beta iota.
    destruct (startswith (lower name) (lit "bat")).
    + apply Htry.
    + destruct (dev_capacity d); try apply IH; apply Htry.
Qed.

(** The filesystem source raises only what the listing raises. *)
Lemma get_sys_battery_result w t :
  exists r t', get_sys_battery int_of_str w t = (r, t') /\
    match r with
    | Ok (Some d) =>
        truthy (Some d) = true /\ reading_typed d /\ d !! "secs_left" = None
    | Ok None => True
    | Raise e => power_supply w = Some (Raise e)
    end.
Proof.
  unfold get_sys_battery. run_M. destruct (power_supply w) as [[entries|e]|].
  - destruct (scan_devices_total entries ((t ++ [EIsDir base]) ++ [EListDir base]))
      as (b & t' & E & Hb).
    exists (Ok b), t'. split; [exact E|]. destruct b; exact Hb.
  - eexists (Raise e), _. split; [reflexivity|reflexivity].
  - exists (Ok None), (t ++ [EIsDir base]). split; [reflexivity|exact I].
Qed.

(** C3.  The metrics source is tried first; when it yields a reading,
    that reading is the result and the trace holds no event of the
    filesystem source, which is not consulted; otherwise the filesystem
    source is tried, and its reading or else the empty reading is the
    result.  An exception of a source passes through: that of the metrics
    source before the filesystem source is consulted. *)
Theorem read_sources_order w :
  exists r t1,
    run (get_psutil_battery w) = (r, t1) /\
    Forall (fun e => sysfs_event e = false) t1 /\
    match r with
    | Ok (Some d) => run (read_sources int_of_str w) = (Ok d, t1)
    | Ok None =>
        exists r2 t2,
          get_sys_battery int_of_str w t1 = (r2, t2) /\
          run (read_sources int_of_str w)
          = (match r2 with
             | Ok b => Ok (default ∅ b)
             | Raise e => Raise e
             end, t2)
    | Raise e => run (read_sources int_of_str w) = (Raise e, t1)
    end.
Proof.
  destruct (get_psutil_battery_result w []) as (r & evs & E & Hev & Hr).
  exists r, evs. cbn [app] in E. split; [exact E|]. split; [exact Hev|].
  unfold read_sources. run_M. rewrite E.
  destruct r as [[d|]|e].
  - destruct Hr as (-> & _). reflexivity.
  - cbn [truthy].
    destruct (get_sys_battery_result w evs) as (r2 & t2 & E2 & Hb).
    exists r2, t2. split; [exact E2|]. rewrite E2.
    destruct r2 as [[d|]|e]; [destruct Hb as (-> & _)| |]; reflexivity.
  - reflexivity.
Qed.

End SysBatteryProps.

(** C8 as stated fails for psutil's "unlimited" constant: only -1 and
    [None] are turned into an absent value, -2 is passed on. *)
Lemma psutil_unlimited_cex :
  let b := {| sb_percent := PInt 100;
              sb_secsleft := Some POWER_TIME_UNLIMITED;
              sb_power_plugged := Some true |} in
  let w := {| psutil := Some (Ok (Some b)); power_supply := None;
              terminal_columns := None; console_write := fun _ _ => None |} in
  exists d t,
    run (get_psutil_battery w) = (Ok (Some d), t) /\
    d !! "secs_left" = Some (VInt (-2)) /\
    d !! "secs_left" <> Some VNone.
Proof.
  cbn zeta. eexists _, _. split; [reflexivity|].
  rewrite lookup_insert_eq. cbn. split; [reflexivity|discriminate].
Qed.

(** C8, as amended.  When the metrics facility reports a battery, the
    reading has as percent an integer nearest to the reported percent, as
    status "Charging" if the power is plugged in and "Discharging"
    otherwise, and as [secs_left] an absent value when the facility reports
    [None] or -1 (unknown), else the reported integer: the constant -2
    (unlimited) is passed on as -2. *)
Theorem psutil_reading w b t :
  psutil w = Some (Ok (Some b)) ->
  exists d,
    get_psutil_battery w t = (Ok (Some d), t ++ [EImportPsutil; ESensorsBattery]) /\
    (exists p, d !! "percent" = Some (VInt p) /\ nearest_int (sb_percent b) p) /\
    d !! "status"
    = Some (VStr (if bool_decide (sb_power_plugged b = Some true)
                  then lit "Charging" else lit "Discharging")) /\
    (sb_secsleft b = None \/ sb_secsleft b = Some POWER_TIME_UNKNOWN ->
     d !! "secs_left" = Some VNone) /\
    (forall s, sb_secsleft b = Some s -> s <> POWER_TIME_UNKNOWN ->
     d !! "secs_left" = Some (VInt s)).
Proof.
  intros Hw. unfold get_psutil_battery. run_M. rewrite Hw.
  eexists. rewrite <- app_assoc. split; [reflexivity|].
  split; [|split; [|split]].
  - exists (py_round (sb_percent b)).
    rewrite !lookup_insert_ne by done. rewrite lookup_insert_eq.
    split; [reflexivity|apply py_round_nearest].
  - rewrite lookup_insert_ne by done. rewrite lookup_insert_eq.
    destruct (sb_power_plugged b) as [[|]|]; reflexivity.
  - rewrite lookup_insert_eq. intros [->| ->]; reflexivity.
  - rewrite lookup_insert_eq. intros s -> Hs. unfold POWER_TIME_UNKNOWN in Hs.
    destruct (Z.eqb_spec s (-1)); [contradiction|reflexivity].
Qed.

Lemma psutil_reading_witness :
  exists d,
    get_psutil_battery sample_world []
    = (Ok (Some d), [] ++ [EImportPsutil; ESensorsBattery]) /\
    (exists p, d !! "percent" = Some (VInt p)
               /\ nearest_int (sb_percent sample_battery) p) /\
    d !! "status"
    = Some (VStr (if bool_decide (sb_power_plugged sample_battery = Some true)
                  then lit "Charging" else lit "Discharging")) /\
    (sb_secsleft sample_battery = None
     \/ sb_secsleft sample_battery = Some POWER_TIME_UNKNOWN ->
     d !! "secs_left" = Some VNone) /\
    (forall s, sb_secsleft sample_battery = Some s -> s <> POWER_TIME_UNKNOWN ->
     d !! "secs_left" = Some (VInt s)).
Proof. apply (psutil_reading sample_world sample_battery []). reflexivity. Defined.

(** ** The merge *)

(** C4.  Each supplied simulated field replaces the field of the base
    reading, whatever it holds, each field that is not supplied keeps what
    the base reading holds, and no other key changes; with only level 75
    supplied on a base reading of percent 40, the percent handed on is 75
    and status and remaining seconds are those of the base reading or their
    defaults. *)
Theorem override_frame level status secsleft (info : dict) :
  let info' := override level status secsleft info in
  info' !! "percent"
    = match level with Some v => Some (VInt v) | None => info !! "percent" end /\
  info' !! "status"
    = match status with Some v => Some (VStr v) | None => info !! "status" end /\
  info' !! "secs_left"
    = match secsleft with Some v => Some (VInt v) | None => info !! "secs_left" end /\
  (forall k, k <> "percent"%string -> k <> "status"%string ->
             k <> "secs_left"%string -> info' !! k = info !! k) /\
  render_args (override (Some 75) None None (<["percent" := VInt 40]> info))
    = (VInt 75,
       default (VStr (lit "Unknown")) (info !! "status"),
       default VNone (info !! "secs_left")).
Proof.
  unfold override, render_args. cbn zeta.
  repeat split.
  - destruct level, status, secsleft;
      rewrite ?lookup_insert_eq, ?(lookup_insert_ne _ "secs_left" "percent"),
        ?(lookup_insert_ne _ "status" "percent"), ?lookup_insert_eq by done; reflexivity.
  - destruct level, status, secsleft;
      rewrite ?lookup_insert_eq, ?(lookup_insert_ne _ "secs_left" "status"),
        ?lookup_insert_eq, ?(lookup_insert_ne _ "percent" "status") by done; reflexivity.
  - destruct level, status, secsleft;
      rewrite ?lookup_insert_eq, ?(lookup_insert_ne _ "status" "secs_left"),
        ?(lookup_insert_ne _ "percent" "secs_left") by done; reflexivity.
  - intros k H1 H2 H3. destruct level, status, secsleft;
      rewrite ?lookup_insert_ne by done; reflexivity.
  - rewrite lookup_insert_eq, !lookup_insert_ne by done. reflexivity.
Qed.

Lemma override_frame_witness :
  override (Some 75) None (Some 60) ({["status" := VStr (lit "Full")]} : dict)
    !! "voltage"
  = ({["status" := VStr (lit "Full")]} : dict) !! "voltage".
Proof.
  apply (proj1 (proj2 (proj2 (proj2
    (override_frame (Some 75) None (Some 60) {["status" := VStr (lit "Full")]}))))
    "voltage"%string); discriminate.
Defined.

(** ** The command and missing data *)

Lemma format_time_total secs status :
  (forall n, secs = Some n -> n < 86400 * 10 ^ 9) ->
  exists s, format_time secs status = Ok s.
Proof.
  intros H. unfold format_time. destruct secs as [n|].
  - specialize (H n eq_refl). destruct (Z.ltb_spec n 0).
    + destruct (_ && _); eauto.
    + destruct (Z.lt_ge_cases n 86400).
      * rewrite timedelta_str_day by lia. cbn [rbind]. eauto.
      * rewrite timedelta_str_days by lia. cbn [rbind]. eauto.
  - destruct (_ && _); eauto.
Qed.

Lemma gauge_lines_total percent :
  - 10 ^ 14 <= percent <= 10 ^ 14 -> exists lines, gauge_lines percent = Ok lines.
Proof.
  intros H.
  destruct (gauge_lines_ok percent (Z.quot (percent * 28) 100)) as (row & E & _).
  - apply fill_cols_quot, H.
  - pose proof (perc_text_length 15 percent ltac:(lia)) as P.
    change (10 ^ Z.of_nat 15) with 1000000000000000 in P.
    change (10 ^ 14) with 100000000000000 in H. unfold width. lia.
  - eauto.
Qed.

Lemma small_percent percent :
  - 1000000 <= percent <= 1000000 -> - 10 ^ 14 <= percent <= 10 ^ 14.
Proof. change (10 ^ 14) with 100000000000000. lia. Qed.


Lemma override_typed level status secsleft d :
  reading_typed d -> reading_typed (override level status secsleft d).
Proof.
  intros H. unfold override.
  destruct secsleft as [v|];
    [apply (reading_typed_insert_secs (Some v))|];
    (destruct status; [apply reading_typed_insert_status|]);
    (destruct level; [apply reading_typed_insert_percent|]); exact H.
Qed.

Lemma render_args_typed d :
  reading_typed d ->
  exists p s secs,
    render_args d = (VInt p, VStr s, val_of_opt secs) /\
    (d !! "percent" = None -> p = 50) /\
    (d !! "status" = None -> s = lit "Unknown") /\
    (d !! "secs_left" = None -> secs = None).
Proof.
  intros (P & S & T). unfold render_args.
  destruct (d !! "percent") as [v|] eqn:Ep;
    [destruct (P v eq_refl) as (p & ->)|];
    (destruct (d !! "status") as [v'|] eqn:Es;
       [destruct (S v' eq_refl) as (s & ->)|]);
    (destruct (d !! "secs_left") as [v''|] eqn:Et;
       [destruct (T v'' eq_refl) as [->|(n & ->)]|]);
    cbn [default];
    first [ eexists _, _, None; split; [reflexivity|]; repeat split; congruence
          | eexists _, _, (Some _); split; [reflexivity|]; repeat split; congruence ].
Qed.

Section ShowProps.

Variable int_of_str : pystr -> option Z.

(** Reading the sources gives a well-typed reading, or raises what
    [sensors_battery] or the listing of the directory raises. *)
Lemma read_sources_result w :
  exists r t, run (read_sources int_of_str w) = (r, t) /\
    match r with
    | Ok info => reading_typed info
    | Raise e => psutil w = Some (Raise e) \/ power_supply w = Some (Raise e)
    end.
Proof.
  destruct (get_psutil_battery_result w []) as (r & evs & E & _ & Hr).
  cbn [app] in E. unfold read_sources. run_M. rewrite E.
  destruct r as [[d|]|e].
  - destruct Hr as (-> & Hd & _). eexists (Ok _), _. split; [reflexivity|exact Hd].
  - cbn [truthy].
    destruct (get_sys_battery_result int_of_str w evs) as (r2 & t2 & -> & Hb).
    destruct r2 as [[d|]|e].
    + destruct Hb as (-> & Hd & _). eexists (Ok _), _. split; [reflexivity|exact Hd].
    + cbn [truthy]. eexists (Ok _), _. split; [reflexivity|apply reading_typed_empty].
    + eexists (Raise e), _. split; [reflexivity|right; exact Hb].
  - eexists (Raise e), _. split; [reflexivity|left; exact Hr].
Qed.

(** The command is the renderer on the merged values behind the trace of
    the sources, or the exception of a source. *)
Lemma show_after_sources w level status secsleft :
  exists r t,
    run (read_sources int_of_str w) = (r, t) /\
    match r with
    | Ok info =>
        reading_typed info /\
        exists p s secs,
          render_args (override level status secsleft info)
          = (VInt p, VStr s, val_of_opt secs) /\
          (override level status secsleft info !! "percent" = None -> p = 50) /\
          (override level status secsleft info !! "status" = None
           -> s = lit "Unknown") /\
          (override level status secsleft info !! "secs_left" = None
           -> secs = None) /\
          run (show int_of_str w level status secsleft)
          = render_battery w p s secs t
    | Raise e =>
        (psutil w = Some (Raise e) \/ power_supply w = Some (Raise e)) /\
        run (show int_of_str w level status secsleft) = (Raise e, t)
    end.
Proof.
  destruct (read_sources_result w) as (r & t & E & Hr).
  exists r, t. split; [exact E|]. unfold run in E.
  destruct r as [info|e].
  - split; [exact Hr|].
    destruct (render_args_typed _ (override_typed level status secsleft _ Hr))
      as (p & s & secs & Ea & Hp & Hs & Ht).
    exists p, s, secs. split; [exact Ea|]. split; [exact Hp|].
    split; [exact Hs|]. split; [exact Ht|].
    unfold show, run, mbind, M_bind. rewrite E, Ea. destruct secs; reflexivity.
  - split; [exact Hr|]. unfold show, run, mbind, M_bind. rewrite E. reflexivity.
Qed.

(** C9.  The code breaks the claim.  On a machine with psutil and without
    /sys/class/power_supply, where [psutil.sensors_battery()] raises
    [FileNotFoundError], the command raises after the call, before any
    default is filled in and before anything is printed: the call is not
    inside the [try] of [get_psutil_battery].  So it does on a directory
    that cannot be listed, [os.listdir] being outside the [try] of
    [get_sys_battery]; and whatever [sensors_battery] raises ends the
    command, whatever the options. *)
Theorem show_raises_on_missing_data :
  run (show int_of_str world_without_power_supply None None None)
  = (Raise FileNotFoundError, [EImportPsutil; ESensorsBattery]) /\
  run (show int_of_str world_unlistable None None None)
  = (Raise PermissionError, [EImportPsutil; EIsDir base; EListDir base]) /\
  (forall w e level status secsleft,
     psutil w = Some (Raise e) ->
     run (show int_of_str w level status secsleft)
     = (Raise e, [EImportPsutil; ESensorsBattery])).
Proof.
  assert (forall w e level status secsleft,
     psutil w = Some (Raise e) ->
     run (show int_of_str w level status secsleft)
     = (Raise e, [EImportPsutil; ESensorsBattery])) as G.
  { intros w e level status secsleft Hw.
    unfold show, read_sources, get_psutil_battery, run.
    unfold mbind, M_bind, mret, M_ret, tell, raise. cbn beta iota.
    rewrite Hw. reflexivity. }
  split; [apply G; reflexivity|]. split; [reflexivity|exact G].
Qed.


End ShowProps.


(** ** More on the gauge *)

(** Writing a text that fits, character by character, replaces the
    characters from [start] on and nothing else. *)
Lemma overlay_splice text : forall row start,
  0 <= start -> start + len text <= len row ->
  overlay row start text = Ok (splice row start text).
Proof.
  induction text as [|ch text IH]; intros row start H0 H1; cbn [overlay].
  - unfold splice. cbn [length app]. rewrite Nat.add_0_r, take_drop. reflexivity.
  - unfold len in H1. cbn [length] in H1.
    rewrite setitem_ok by (unfold len; lia). cbn [rbind].
    rewrite IH by (unfold len; rewrite ?length_insert; lia).
    f_equal. unfold splice.
    replace (Z.to_nat (start + 1)) with (S (Z.to_nat start)) by lia.
    assert (Z.to_nat start < length row)%nat as Hlt by lia.
    rewrite (take_S_r _ _ ch) by (apply list_lookup_insert_eq; exact Hlt).
    rewrite take_insert_ge by lia.
    rewrite drop_insert_lt by lia.
    cbn [length]. rewrite <- app_assoc. cbn [app].
    replace (S (Z.to_nat start) + length text)%nat
      with (Z.to_nat start + S (length text))%nat by lia.
    reflexivity.
Qed.

Lemma gauge_lines_splice percent fc :
  fill_cols percent = Ok fc -> len (perc_text percent) <= width ->
  gauge_lines percent
  = Ok (<[6%nat := splice (interior_row fc) (overlay_start (perc_text percent))
                     (perc_text percent)]> (box_lines fc)).
Proof.
  intros Hfc Hlen. unfold gauge_lines. rewrite Hfc. cbn [rbind].
  rewrite (getitem_ok (box_lines fc) mid (interior_row fc))
    by (try reflexivity; vm_compute; discriminate).
  cbn [rbind].
  pose proof (len_nonneg (perc_text percent)) as Hnn.
  pose proof (interior_row_length fc) as Hrow.
  assert (0 <= (width - len (perc_text percent)) / 2) as Hdiv by (apply Z.div_pos; lia).
  assert (2 * ((width - len (perc_text percent)) / 2) <= width - len (perc_text percent))
    as Hhalf by (apply Z.mul_div_le; lia).
  rewrite overlay_splice.
  - cbn [rbind]. rewrite setitem_ok; [reflexivity|].
    rewrite box_lines_rows. vm_compute. split; discriminate || reflexivity.
  - unfold overlay_start. lia.
  - unfold overlay_start, len in *. unfold width in *. lia.
Qed.

Lemma perc_text_fits percent :
  - 10 ^ 14 <= percent <= 10 ^ 14 -> 2 <= len (perc_text percent) <= 17.
Proof.
  intros H. split.
  - unfold perc_text. rewrite len_app. change (len (lit "%")) with 1.
    enough (1 <= len (str_of_int percent)) by lia.
    unfold str_of_int, digits. cbn [digits_go].
    destruct (percent <? 0); [unfold len; cbn [length]; lia|].
    assert (forall f n acc, (length acc <= length (digits_go f n acc))%nat) as G.
    { induction f as [|f IHf]; intros n acc; cbn [digits_go]; [lia|].
      destruct (n <? 10); [cbn [length]; lia|].
      etransitivity; [|apply IHf]. cbn [length]. lia. }
    destruct (percent <? 10); [unfold len; cbn [length]; lia|].
    pose proof (G (Z.to_nat (Z.log2 percent)) (percent / 10) [digit (percent mod 10)]).
    unfold len. cbn [length] in *. lia.
  - pose proof (perc_text_length 15 percent ltac:(lia)) as P.
    change (10 ^ Z.of_nat 15) with 1000000000000000 in P.
    change (10 ^ 14) with 100000000000000 in H. lia.
Qed.

(** X2.  For a percent within 10^6, the percent text lands in the middle
    line, centered over the 28 interior columns, and every other line is
    the line of the plain box. *)
Theorem gauge_text_centered percent :
  - 1000000 <= percent <= 1000000 ->
  exists fc lines row start,
    fill_cols percent = Ok fc /\
    gauge_lines percent = Ok lines /\
    lines !! 6%nat = Some row /\
    row = splice (interior_row fc) start (perc_text percent) /\
    (let left := start - 1 in
     let right := width - len (perc_text percent) - left in
     0 <= left /\ 0 <= right - left <= 1) /\
    (forall i, i <> 6%nat -> lines !! i = box_lines fc !! i).
Proof.
  intros H. apply small_percent in H.
  pose proof (perc_text_fits percent H) as Hfit.
  pose proof (fill_cols_quot percent H) as Hfc.
  exists (Z.quot (percent * 28) 100). eexists. eexists.
  exists (overlay_start (perc_text percent)).
  split; [exact Hfc|].
  split; [apply gauge_lines_splice; [exact Hfc|unfold width; lia]|].
  split; [rewrite box_lines_rows; reflexivity|].
  split; [reflexivity|]. split.
  - cbn zeta. unfold overlay_start, width.
    set (L := len (perc_text percent)) in *.
    pose proof (Z.div_mod (28 - L) 2 ltac:(lia)).
    pose proof (Z.mod_pos_bound (28 - L) 2 ltac:(lia)). lia.
  - intros i Hi. apply list_lookup_insert_ne. congruence.
Qed.

Lemma gauge_text_centered_witness :
  exists fc lines row start,
    fill_cols 7 = Ok fc /\
    gauge_lines 7 = Ok lines /\
    lines !! 6%nat = Some row /\
    row = splice (interior_row fc) start (perc_text 7) /\
    (let left := start - 1 in
     let right := width - len (perc_text 7) - left in
     0 <= left /\ 0 <= right - left <= 1) /\
    (forall i, i <> 6%nat -> lines !! i = box_lines fc !! i).
Proof. apply (gauge_text_centered 7). lia. Defined.

(** X3.  For a percent within 10^6: outside of -3..103 the interior rows
    outgrow the borders: a row has 30 characters plus the columns by which
    the count leaves [0,28], the cap and the borders keep their 30. *)
Theorem gauge_row_lengths percent :
  - 1000000 <= percent <= 1000000 ->
  exists fc lines,
    fill_cols percent = Ok fc /\
    gauge_lines percent = Ok lines /\
    length lines = 12%nat /\
    Forall (fun row => len row = 30 + Z.max 0 (fc - 28) + Z.max 0 (- fc))
           (interior lines) /\
    Forall (fun line => len line = 30) (take 2 lines ++ drop 11 lines) /\
    (Forall (fun line => len line = 30) lines <-> -3 <= percent <= 103).
Proof.
  intros H. apply small_percent in H.
  pose proof (fill_cols_quot percent H) as Hfc.
  destruct (gauge_lines_ok percent _ Hfc) as (row & E & L).
  { pose proof (perc_text_fits percent H). unfold width. lia. }
  set (fc := Z.quot (percent * 28) 100) in *.
  assert (len (interior_row fc) = 30 + Z.max 0 (fc - 28) + Z.max 0 (- fc)) as R.
  { unfold len. rewrite interior_row_length. unfold width. lia. }
  assert (len row = 30 + Z.max 0 (fc - 28) + Z.max 0 (- fc)) as R'
    by (unfold len in *; rewrite L; exact R).
  destruct frame_lengths as (C & T & B).
  assert (-3 <= percent <= 103 <-> 0 <= fc <= 28) as Hrange.
  { subst fc. destruct (Z.le_gt_cases 0 percent) as [Hp|Hp].
    - rewrite Z.quot_div_nonneg by lia.
      pose proof (Z.div_mod (percent * 28) 100 ltac:(lia)).
      pose proof (Z.mod_pos_bound (percent * 28) 100 ltac:(lia)). lia.
    - replace (percent * 28) with (- (- percent * 28)) by ring.
      rewrite Z.quot_opp_l by lia. rewrite Z.quot_div_nonneg by lia.
      pose proof (Z.div_mod (- percent * 28) 100 ltac:(lia)).
      pose proof (Z.mod_pos_bound (- percent * 28) 100 ltac:(lia)). lia. }
  exists fc, (<[6%nat := row]> (box_lines fc)).
  split; [exact Hfc|]. split; [exact E|].
  rewrite box_lines_rows. cbn [list_insert insert].
  split; [reflexivity|]. split; [|split].
  - unfold interior. cbn [drop take]. repeat constructor; assumption.
  - cbn [drop take app].
    repeat constructor; unfold len; rewrite ?C, ?T, ?B; reflexivity.
  - rewrite Hrange. split.
    + intros F. apply Forall_cons in F as [_ F]. apply Forall_cons in F as [_ F].
      apply Forall_cons in F as [F _]. lia.
    + intros Hb. repeat constructor; unfold len in *; rewrite ?C, ?T, ?B; lia.
Qed.

Lemma gauge_row_lengths_witness :
  exists fc lines,
    fill_cols 150 = Ok fc /\
    gauge_lines 150 = Ok lines /\
    length lines = 12%nat /\
    Forall (fun row => len row = 30 + Z.max 0 (fc - 28) + Z.max 0 (- fc))
           (interior lines) /\
    Forall (fun line => len line = 30) (take 2 lines ++ drop 11 lines) /\
    (Forall (fun line => len line = 30) lines <-> -3 <= 150 <= 103).
Proof. apply (gauge_row_lengths 150). lia. Defined.

(** X1.  More charge never shows fewer columns; within 0..100 the gauge is full
    at 100 only and empty up to 3 only. *)
Theorem fill_cols_monotone p q :
  - 10 ^ 14 <= p -> p <= q -> q <= 10 ^ 14 ->
  exists a b,
    fill_cols p = Ok a /\ fill_cols q = Ok b /\ a <= b /\
    (0 <= p <= 100 -> (a = 28 <-> p = 100) /\ (a = 0 <-> p <= 3)).
Proof.
  intros Hp Hpq Hq.
  exists (Z.quot (p * 28) 100), (Z.quot (q * 28) 100).
  split; [apply fill_cols_quot; lia|]. split; [apply fill_cols_quot; lia|].
  split; [apply Z.quot_le_mono; lia|].
  intros Hr. rewrite Z.quot_div_nonneg by lia.
  pose proof (Z.div_mod (p * 28) 100 ltac:(lia)).
  pose proof (Z.mod_pos_bound (p * 28) 100 ltac:(lia)). lia.
Qed.

Lemma fill_cols_monotone_witness :
  exists a b,
    fill_cols 37 = Ok a /\ fill_cols 38 = Ok b /\ a <= b /\
    (0 <= 37 <= 100 -> (a = 28 <-> 37 = 100) /\ (a = 0 <-> 37 <= 3)).
Proof. apply (fill_cols_monotone 37 38); vm_compute; discriminate. Defined.

(** ** Centering the block *)

Lemma splitlines_go_line x : forall rest cur,
  one_line x ->
  splitlines_go (x ++ rest) cur false = splitlines_go rest (rev x ++ cur) false.
Proof.
  induction x as [|c x IH]; intros rest cur Hx; [reflexivity|].
  apply Forall_cons in Hx as [Hc Hx].
  cbn [app splitlines_go andb]. rewrite Hc. rewrite IH by exact Hx.
  cbn [rev]. rewrite <- app_assoc. reflexivity.
Qed.

(** Joining lines with newlines and splitting the block again gives the
    lines back. *)
Lemma splitlines_join ls : block_lines ls -> splitlines (join newline ls) = ls.
Proof.
  unfold splitlines. intros [Hl Hlast].
  induction ls as [|x ls IH]; [reflexivity|].
  apply Forall_cons in Hl as [Hx Hl].
  destruct ls as [|y ls].
  - cbn [join]. rewrite <- (app_nil_r x) at 1.
    rewrite splitlines_go_line by exact Hx. cbn [splitlines_go].
    rewrite app_nil_r. destruct (rev x) eqn:E.
    + apply (f_equal (@rev _)) in E. rewrite rev_involutive in E. cbn in E.
      subst x. exfalso. apply Hlast. reflexivity.
    + rewrite <- E, rev_involutive. reflexivity.
  - change (join newline (x :: y :: ls)) with (x ++ newline ++ join newline (y :: ls)).
    rewrite splitlines_go_line by exact Hx. rewrite app_nil_r.
    unfold newline at 1. cbn [app splitlines_go andb].
    change (is_linebreak 10%N) with true. cbn iota.
    rewrite rev_involutive. change ((10 =? 13)%N) with false.
    f_equal. apply IH; [exact Hl|]. exact Hlast.
Qed.

Lemma max_len_spec (ls : list pystr) :
  let m := foldr Z.max 0 (map len ls) in
  Forall (fun l => len l <= m) ls /\
  (ls = [] /\ m = 0 \/ exists l, l ∈ ls /\ len l = m).
Proof.
  induction ls as [|x ls IH]; cbn [map foldr].
  - split; [constructor|left; auto].
  - cbn zeta in IH. destruct IH as [Hall Hmax].
    set (m := foldr Z.max 0 (map len ls)) in *. split.
    + constructor; [lia|]. eapply Forall_impl; [exact Hall|]. cbn. lia.
    + right. destruct (Z.max_spec (len x) m) as [[Hlt ->]|[Hge ->]].
      * destruct Hmax as [[-> Hm]|(l & Hin & Hl)].
        -- pose proof (len_nonneg x). lia.
        -- exists l. split; [right; exact Hin|exact Hl].
      * exists x. split; [left|reflexivity].
Qed.

(** X4.  [center_text_block] queries the terminal once and puts the same run of
    spaces in front of every line.  With [m] the length of the longest line
    and [cols] the terminal width (80 when the query fails), the run leaves
    the longest line centered, the right margin at most one column wider
    than the left one; a block wider than the terminal gets no padding. *)
Theorem center_text_block_uniform w block t :
  exists pad m,
    center_text_block w block t
    = (Ok (join newline (map (fun line => replicate pad 32%N ++ line)
                             (splitlines block))),
       t ++ [ETerminalSize]) /\
    Forall (fun l => len l <= m) (splitlines block) /\
    (splitlines block = [] /\ m = 0 \/ exists l, l ∈ splitlines block /\ len l = m) /\
    let cols := default 80 (terminal_columns w) in
    (m <= cols -> 0 <= cols - m - 2 * Z.of_nat pad <= 1) /\
    (cols <= m -> pad = 0%nat).
Proof.
  set (ls := splitlines block).
  set (m := foldr Z.max 0 (map len ls)).
  set (cols := default 80 (terminal_columns w)).
  exists (Z.to_nat (left_pad cols m)), m.
  split.
  { unfold center_text_block, mbind, M_bind, mret, M_ret, tell. cbn beta iota.
    fold ls. fold m. fold cols. f_equal. f_equal. f_equal.
    unfold left_pad. apply map_ext. intros line.
    rewrite str_mul_char. reflexivity. }
  destruct (max_len_spec ls) as [Hall Hmax]. fold m in Hall, Hmax.
  split; [exact Hall|]. split; [exact Hmax|]. cbn zeta. unfold left_pad.
  pose proof (Z.div_mod (cols - m) 2 ltac:(lia)).
  pose proof (Z.mod_pos_bound (cols - m) 2 ltac:(lia)).
  split; intros; lia.
Qed.

(** X5.  For a block joined from lines, the centered block is the same lines
    joined again, each behind the same padding: the line structure and the
    alignment of the columns survive. *)
Theorem center_text_block_lines w ls t :
  block_lines ls ->
  center_text_block w (join newline ls) t
  = (Ok (join newline
           (map (fun line =>
                   replicate
                     (Z.to_nat (left_pad (default 80 (terminal_columns w))
                                         (foldr Z.max 0 (map len ls))))
                     32%N ++ line) ls)),
     t ++ [ETerminalSize]).
Proof.
  intros Hls.
  unfold center_text_block, mbind, M_bind, mret, M_ret, tell. cbn beta iota.
  rewrite splitlines_join by exact Hls. f_equal. f_equal. f_equal.
  apply map_ext. intros line. rewrite str_mul_char. reflexivity.
Qed.

Lemma center_text_block_lines_witness :
  center_text_block
    {| psutil := None; power_supply := None; terminal_columns := Some 20; console_write := fun _ _ => None |}
    (join newline [lit "+----+"; lit "| ab |   x"; lit "+----+"]) []
  = (Ok (join newline [lit "     +----+"; lit "     | ab |   x"; lit "     +----+"]),
     [ETerminalSize]).
Proof.
  apply (center_text_block_lines
           {| psutil := None; power_supply := None; terminal_columns := Some 20; console_write := fun _ _ => None |}
           [lit "+----+"; lit "| ab |   x"; lit "+----+"] []).
  split; [|discriminate]. repeat constructor.
Defined.

(** ** What the renderer prints, and when it fails *)

Lemma fill_cols_raise percent e : fill_cols percent = Raise e -> e = OverflowError.
Proof.
  unfold fill_cols, true_div. change (100 =? 0) with false. cbv iota.
  destruct (_ =? 0); [discriminate|].
  destruct (_ && _); [|discriminate]. cbn [rbind]. congruence.
Qed.

Lemma setitem_raise {A} (l : list A) i x e : setitem l i x = Raise e -> e = IndexError.
Proof.
  unfold setitem. destruct (_ && _); [discriminate|].
  destruct (_ && _); [discriminate|]. congruence.
Qed.

Lemma getitem_raise {A} (l : list A) i e : getitem l i = Raise e -> e = IndexError.
Proof.
  unfold getitem. destruct (_ && _); [|congruence].
  destruct (l !! _); [discriminate|congruence].
Qed.

Lemma overlay_raise text : forall row start e,
  overlay row start text = Raise e -> e = IndexError.
Proof.
  induction text as [|ch text IH]; intros row start e; cbn [overlay]; [discriminate|].
  destruct (setitem row start ch) as [row'|e'] eqn:E; cbn [rbind].
  - apply IH.
  - intros [= <-]. eapply setitem_raise, E.
Qed.

Lemma gauge_lines_raise percent e :
  gauge_lines percent = Raise e -> e = OverflowError \/ e = IndexError.
Proof.
  unfold gauge_lines.
  destruct (fill_cols percent) as [fc|e1] eqn:E1; cbn [rbind];
    [|intros [= <-]; left; eapply fill_cols_raise, E1].
  destruct (getitem _ _) as [row|e2] eqn:E2; cbn [rbind];
    [|intros [= <-]; right; eapply getitem_raise, E2].
  destruct (overlay _ _ _) as [row'|e3] eqn:E3; cbn [rbind];
    [|intros [= <-]; right; eapply overlay_raise, E3].
  intros H. right. eapply setitem_raise, H.
Qed.

Lemma format_time_raise secs status e :
  format_time secs status = Raise e -> e = OverflowError.
Proof.
  assert (forall n, rbind (timedelta_str n) (fun s => Ok (split_dot_first s)) = Raise e ->
                    e = OverflowError) as T.
  { intros n. unfold timedelta_str. destruct (_ <? _); cbn [rbind]; congruence. }
  unfold format_time. destruct secs as [n|].
  - destruct (n <? 0); [destruct (_ && _); discriminate|apply T].
  - destruct (_ && _); discriminate.
Qed.

(** X6.  For a percent within 10^6 the renderer fails in two ways only:
    before it touches the terminal, with [OverflowError], the trace as it
    was and nothing handed to the console, which happens for a remaining
    time of 10^9 days or more; or with what the console raises, after the
    terminal query and the hand-over of the block. *)
Theorem render_battery_fails_clean w percent status secs t e t' :
  - 1000000 <= percent <= 1000000 ->
  render_battery w percent status secs t = (Raise e, t') ->
  (t' = t /\ e = OverflowError /\ exists n, secs = Some n /\ 86400 * 10 ^ 9 <= n)
  \/ (exists text,
        t' = t ++ [ETerminalSize; EPrint (color_for_percent percent) text] /\
        console_write w (color_for_percent percent) text = Some e).
Proof.
  intros Hp.
  destruct (gauge_lines_total percent (small_percent _ Hp)) as (lines & El).
  unfold render_battery, info_lines, center_text_block.
  unfold mbind, M_bind, mret, M_ret, tell, lift, raise. cbn beta iota.
  rewrite El.
  destruct (format_time secs (Some status)) as [time|e2] eqn:E2; cbn [rbind].
  - rewrite <- app_assoc. cbn [app].
    match goal with
    | |- context [console_write w ?c ?x] =>
        destruct (console_write w c x) as [e'|] eqn:C; [|discriminate];
        intros H; right; exists x
    end.
    apply (f_equal snd) in H as Ht. cbn [snd] in Ht.
    apply (f_equal fst) in H. cbn [fst] in H.
    split; [symmetry; exact Ht|]. congruence.
  - intros H. left.
    apply (f_equal snd) in H as Ht. cbn [snd] in Ht.
    apply (f_equal fst) in H. cbn [fst] in H.
    split; [symmetry; exact Ht|].
    pose proof (format_time_raise _ _ _ E2) as ->.
    split; [congruence|].
    destruct secs as [n|].
    + exists n. split; [reflexivity|].
      destruct (Z.lt_ge_cases n (86400 * 10 ^ 9)) as [Hlt|Hge]; [|lia].
      destruct (format_time_total (Some n) (Some status)) as (x & Ex);
        [intros m [= <-]; exact Hlt|congruence].
    + destruct (format_time_total None (Some status)) as (x & Ex);
        [discriminate|congruence].
Qed.

Lemma render_battery_fails_clean_witness :
  render_battery sample_world 50 (lit "Full") (Some (86400 * 10 ^ 9)) [ESensorsBattery]
  = (Raise OverflowError, [ESensorsBattery]) /\
  (([ESensorsBattery] = [ESensorsBattery] /\ OverflowError = OverflowError /\
    exists n, Some (86400 * 10 ^ 9) = Some n /\ 86400 * 10 ^ 9 <= n)
   \/ (exists text,
         [ESensorsBattery]
         = [ESensorsBattery] ++ [ETerminalSize; EPrint (color_for_percent 50) text] /\
         console_write sample_world (color_for_percent 50) text = Some OverflowError)).
Proof.
  assert (render_battery sample_world 50 (lit "Full") (Some (86400 * 10 ^ 9))
            [ESensorsBattery] = (Raise OverflowError, [ESensorsBattery])) as H
    by (vm_compute; reflexivity).
  split; [exact H|].
  apply (render_battery_fails_clean sample_world 50 (lit "Full")
           (Some (86400 * 10 ^ 9)) [ESensorsBattery] OverflowError [ESensorsBattery]);
    [lia|exact H].
Defined.

(** X7.  A remaining time of 10^9 days or more is refused by [timedelta]: for
    every percent within 10^6 the renderer raises [OverflowError] and hands
    nothing to the console. *)
Theorem render_battery_secs_overflow w percent status secs t :
  - 1000000 <= percent <= 1000000 ->
  86400 * 10 ^ 9 <= secs ->
  format_time (Some secs) (Some status) = Raise OverflowError /\
  render_battery w percent status (Some secs) t = (Raise OverflowError, t).
Proof.
  intros Hp Hs.
  assert (format_time (Some secs) (Some status) = Raise OverflowError) as F.
  { unfold format_time. destruct (Z.ltb_spec secs 0); [lia|].
    unfold timedelta_str.
    assert (10 ^ 9 <= secs / 86400) by (apply Z.div_le_lower_bound; lia).
    change (10 ^ 9) with 1000000000 in *.
    destruct (Z.ltb_spec 999999999 (Z.abs (secs / 86400))); [reflexivity|lia]. }
  split; [exact F|].
  destruct (gauge_lines_total percent (small_percent _ Hp)) as (lines & El).
  unfold render_battery, info_lines.
  unfold mbind, M_bind, mret, M_ret, tell, lift. cbn beta iota.
  rewrite El, F. reflexivity.
Qed.

Lemma render_battery_secs_overflow_witness :
  format_time (Some (86400 * 10 ^ 9 + 5)) (Some (lit "Charging")) = Raise OverflowError /\
  render_battery sample_world 80 (lit "Charging") (Some (86400 * 10 ^ 9 + 5)) []
  = (Raise OverflowError, []).
Proof.
  apply (render_battery_secs_overflow sample_world 80 (lit "Charging")
           (86400 * 10 ^ 9 + 5) []); [lia|vm_compute; discriminate].
Defined.

(** ** The printed block *)

Lemma one_line_app a b : one_line a -> one_line b -> one_line (a ++ b).
Proof. apply Forall_app_2. Qed.

Lemma one_line_replicate n c : is_linebreak c = false -> one_line (replicate n c).
Proof. intros H. apply Forall_replicate. exact H. Qed.

Lemma one_line_digits n : one_line (digits n).
Proof.
  eapply Forall_impl; [apply digits_digits|]. intros c [H1 H2].
  unfold is_linebreak.
  repeat match goal with
         | |- context [(?a <=? ?b)%N] => destruct (N.leb_spec a b)
         | |- context [(?a =? ?b)%N] => destruct (N.eqb_spec a b)
         end; try reflexivity; lia.
Qed.

Lemma one_line_str_of_int n : one_line (str_of_int n).
Proof.
  unfold str_of_int. destruct (n <? 0); [constructor; [reflexivity|]|];
    apply one_line_digits.
Qed.

Lemma one_line_fmt_02d n : one_line (fmt_02d n).
Proof.
  unfold fmt_02d. destruct (n <? 0).
  - constructor; [reflexivity|]. apply one_line_app; [|apply one_line_digits].
    rewrite str_mul_char. apply one_line_replicate. reflexivity.
  - apply one_line_app; [|apply one_line_digits].
    rewrite str_mul_char. apply one_line_replicate. reflexivity.
Qed.

Lemma one_line_split_dot s : one_line s -> one_line (split_dot_first s).
Proof.
  induction 1 as [|c s Hc _ IH]; cbn [split_dot_first]; [constructor|].
  destruct (c =? 46)%N; constructor; assumption.
Qed.

Lemma one_line_lit_closed (s : pystr) :
  forallb (fun c => negb (is_linebreak c)) s = true -> one_line s.
Proof.
  intros H. apply Forall_forall. intros c Hc.
  rewrite forallb_forall in H. apply list_elem_of_In in Hc.
  specialize (H c Hc). destruct (is_linebreak c); [discriminate|reflexivity].
Qed.

Lemma Ok_inj {A} (a b : A) : Ok a = Ok b -> a = b.
Proof. congruence. Qed.

Lemma timedelta_str_one_line n s : timedelta_str n = Ok s -> one_line s.
Proof.
  unfold timedelta_str. destruct (_ <? _); [discriminate|].
  intros H. apply Ok_inj in H. rewrite <- H. clear H.
  assert (one_line (str_of_int (n mod 86400 / 60 / 60) ++ lit ":"
                      ++ fmt_02d ((n mod 86400 / 60) mod 60) ++ lit ":"
                      ++ fmt_02d ((n mod 86400) mod 60))) as Hs.
  { apply one_line_app; [apply one_line_str_of_int|].
    apply one_line_app; [apply one_line_lit_closed; reflexivity|].
    apply one_line_app; [apply one_line_fmt_02d|].
    apply one_line_app; [apply one_line_lit_closed; reflexivity|].
    apply one_line_fmt_02d. }
  destruct (_ =? 0); [exact Hs|].
  apply one_line_app; [apply one_line_str_of_int|].
  apply one_line_app; [apply one_line_lit_closed; reflexivity|].
  apply one_line_app;
    [destruct (_ =? 1); [constructor|apply one_line_lit_closed; reflexivity]|].
  apply one_line_app; [apply one_line_lit_closed; reflexivity|exact Hs].
Qed.

Lemma format_time_one_line secs status s :
  format_time secs status = Ok s -> one_line s.
Proof.
  assert (forall n, rbind (timedelta_str n) (fun s => Ok (split_dot_first s)) = Ok s ->
                    one_line s) as T.
  { intros n. destruct (timedelta_str n) as [x|] eqn:E; cbn [rbind]; [|discriminate].
    intros H. apply Ok_inj in H. rewrite <- H.
    apply one_line_split_dot. eapply timedelta_str_one_line, E. }
  unfold format_time. destruct secs as [n|].
  - destruct (n <? 0); [|apply T].
    destruct (_ && _); intros [= <-]; apply one_line_lit_closed; reflexivity.
  - destruct (_ && _); intros [= <-]; apply one_line_lit_closed; reflexivity.
Qed.

Lemma one_line_interior_row fc : one_line (interior_row fc).
Proof.
  unfold interior_row. rewrite !str_mul_char.
  repeat apply one_line_app; try (apply one_line_replicate; reflexivity);
    apply one_line_lit_closed; reflexivity.
Qed.

Lemma one_line_take n s : one_line s -> one_line (take n s).
Proof. apply Forall_take. Qed.

Lemma one_line_drop n s : one_line s -> one_line (drop n s).
Proof. apply Forall_drop. Qed.

Lemma one_line_splice row start text :
  one_line row -> one_line text -> one_line (splice row start text).
Proof.
  intros Hr Ht. unfold splice.
  repeat apply one_line_app; auto using one_line_take, one_line_drop.
Qed.

Lemma one_line_perc_text percent : one_line (perc_text percent).
Proof.
  unfold perc_text. apply one_line_app; [apply one_line_str_of_int|].
  apply one_line_lit_closed. reflexivity.
Qed.

Lemma block_of_lines fc percent status time :
  one_line status -> one_line time -> block_lines (block_of fc percent status time).
Proof.
  intros Hs Ht. split; [|discriminate].
  pose proof (one_line_interior_row fc) as Hr.
  assert (one_line cap_line) as Hc by (apply one_line_lit_closed; reflexivity).
  assert (one_line top_border) as Htop by (apply one_line_lit_closed; reflexivity).
  assert (one_line bottom_border) as Hb by (apply one_line_lit_closed; reflexivity).
  assert (one_line (lit "   ")) as Hg by (apply one_line_lit_closed; reflexivity).
  assert (forall pre txt, one_line pre -> one_line txt ->
                          one_line (pre ++ lit "   " ++ txt)) as Hinfo.
  { intros pre txt Hpre Htxt. apply one_line_app; [exact Hpre|].
    apply one_line_app; [exact Hg|exact Htxt]. }
  unfold block_of. cbn zeta.
  apply Forall_cons_2.
  { apply Hinfo; [exact Hc|].
    apply one_line_app; [apply one_line_lit_closed; reflexivity|exact Hs]. }
  apply Forall_cons_2.
  { apply Hinfo; [exact Htop|].
    apply one_line_app; [apply one_line_lit_closed; reflexivity|].
    apply one_line_app; [apply one_line_str_of_int|].
    apply one_line_lit_closed; reflexivity. }
  apply Forall_cons_2.
  { apply Hinfo; [exact Hr|].
    apply one_line_app; [apply one_line_lit_closed; reflexivity|exact Ht]. }
  do 3 (apply Forall_cons_2; [exact Hr|]).
  apply Forall_cons_2; [apply one_line_splice; [exact Hr|apply one_line_perc_text]|].
  do 4 (apply Forall_cons_2; [exact Hr|]).
  apply Forall_cons_2; [exact Hb|]. apply Forall_nil_2.
Qed.

(** X8.  For a percent within 10^6 and a status on one line, the renderer
    hands to the console, in the color of the percent, the twelve lines of
    the gauge behind one common padding: the status, the charge and the
    time follow the cap, the upper border and the first interior row after
    three spaces, the percent text sits in the middle row, and the other
    lines carry nothing else; it returns unless the console raises.  (The
    console lays the text out itself and wraps what is wider than the
    terminal.) *)
Theorem render_battery_output w percent status secs t time :
  - 1000000 <= percent <= 1000000 ->
  one_line status ->
  format_time secs (Some status) = Ok time ->
  exists fc,
    fill_cols percent = Ok fc /\
    let block := block_of fc percent status time in
    let pad := Z.to_nat (left_pad (default 80 (terminal_columns w))
                                  (foldr Z.max 0 (map len block))) in
    let text := join newline (map (fun line => replicate pad 32%N ++ line) block) in
    render_battery w percent status secs t
    = (console_result (console_write w (color_for_percent percent) text),
       t ++ [ETerminalSize; EPrint (color_for_percent percent) text]).
Proof.
  intros Hp Hs Ht. apply small_percent in Hp.
  pose proof (fill_cols_quot percent Hp) as Hfc.
  exists (Z.quot (percent * 28) 100). split; [exact Hfc|]. cbn zeta.
  pose proof (perc_text_fits percent Hp) as Hfit.
  pose proof (gauge_lines_splice percent _ Hfc ltac:(unfold width; lia)) as El.
  pose proof (block_of_lines (Z.quot (percent * 28) 100) percent status time Hs
                (format_time_one_line _ _ _ Ht)) as Hb.
  unfold render_battery, info_lines.
  unfold mbind, M_bind, mret, M_ret, tell, lift, raise. cbn beta iota.
  rewrite El, Ht. cbn [rbind].
  rewrite box_lines_rows. cbn zeta. cbn [list_insert insert].
  change (combined _ _) with (block_of (Z.quot (percent * 28) 100) percent status time).
  unfold center_text_block, mbind, M_bind, mret, M_ret, tell. cbn beta iota.
  rewrite splitlines_join by exact Hb.
  rewrite <- app_assoc. cbn [app].
  assert (map (fun line : list pychar =>
                 str_mul [32%N]
                   (Z.max ((default 80 (terminal_columns w)
                            - foldr Z.max 0
                                (map len (block_of (Z.quot (percent * 28) 100)
                                            percent status time))) / 2) 0) ++ line)
              (block_of (Z.quot (percent * 28) 100) percent status time)
          = map (fun line =>
                   replicate
                     (Z.to_nat
                        (left_pad (default 80 (terminal_columns w))
                           (foldr Z.max 0
                              (map len (block_of (Z.quot (percent * 28) 100)
                                          percent status time))))) 32%N ++ line)
              (block_of (Z.quot (percent * 28) 100) percent status time)) as ->.
  { apply map_ext. intros line. rewrite str_mul_char. reflexivity. }
  destruct (console_write w _ _); reflexivity.
Qed.

Lemma render_battery_output_witness :
  exists fc,
    fill_cols 15 = Ok fc /\
    let block := block_of fc 15 (lit "Discharging") (lit "0:02:00") in
    let pad := Z.to_nat (left_pad (default 80 (terminal_columns sample_world))
                                  (foldr Z.max 0 (map len block))) in
    let text := join newline (map (fun line => replicate pad 32%N ++ line) block) in
    render_battery sample_world 15 (lit "Discharging") (Some 120) []
    = (console_result (console_write sample_world (color_for_percent 15) text),
       [] ++ [ETerminalSize; EPrint (color_for_percent 15) text]).
Proof.
  apply (render_battery_output sample_world 15 (lit "Discharging") (Some 120) []
           (lit "0:02:00")).
  - lia.
  - apply one_line_lit_closed. reflexivity.
  - vm_compute. reflexivity.
Defined.

(** ** The command: which values reach the renderer *)

Section ShowValues.

Variable int_of_str : pystr -> option Z.

(** X9.  With all three options given, the renderer gets exactly the simulated
    values, whatever the machine reports; the sources are read all the
    same, before the call, and an exception of theirs ends the command. *)
Theorem show_simulated w level status secsleft :
  exists r t,
    run (read_sources int_of_str w) = (r, t) /\
    run (show int_of_str w (Some level) (Some status) (Some secsleft))
    = match r with
      | Ok _ => render_battery w level status (Some secsleft) t
      | Raise e => (Raise e, t)
      end.
Proof.
  destruct (show_after_sources int_of_str w (Some level) (Some status) (Some secsleft))
    as (r & t & E & Hr).
  exists r, t. split; [exact E|]. destruct r as [info|e]; [|apply Hr].
  destruct Hr as (_ & p & s & secs & Ea & _ & _ & _ & Es). rewrite Es.
  unfold render_args, override in Ea.
  rewrite lookup_insert_eq in Ea.
  rewrite (lookup_insert_ne _ "secs_left" "status"), lookup_insert_eq in Ea by done.
  rewrite !(lookup_insert_ne _ _ "percent"), lookup_insert_eq in Ea by done.
  cbn [default] in Ea. destruct secs as [n|]; [|discriminate].
  cbn [val_of_opt] in Ea. cbv [id] in Ea. congruence.
Qed.

Lemma read_sources_without_psutil w :
  psutil w = None \/ psutil w = Some (Ok None) ->
  exists r t,
    run (read_sources int_of_str w) = (r, t) /\
    match r with
    | Ok info =>
        reading_typed info /\ info !! "secs_left" = None
        /\ forall e, power_supply w <> Some (Raise e)
    | Raise e => power_supply w = Some (Raise e)
    end.
Proof.
  intros Hw.
  destruct (get_psutil_battery_result w []) as (r & evs & E & _ & Hr).
  cbn [app] in E. unfold read_sources, run, mbind, M_bind, mret, M_ret.
  rewrite E. destruct r as [[d|]|e].
  - destruct Hr as (_ & _ & b & Hb). destruct Hw as [Hw|Hw]; congruence.
  - cbn [truthy].
    assert (forall r2 t2 e, get_sys_battery int_of_str w evs = (Ok r2, t2) ->
                            power_supply w <> Some (Raise e)) as Hok.
    { intros r2 t2 e. unfold get_sys_battery, mbind, M_bind, mret, M_ret, tell, raise.
      cbn beta iota. destruct (power_supply w) as [[entries|e']|]; congruence. }
    destruct (get_sys_battery_result int_of_str w evs) as (r2 & t2 & E2 & Hb).
    rewrite E2. destruct r2 as [[d|]|e].
    + destruct Hb as (-> & Hd & Hs). eexists (Ok _), _. split; [reflexivity|].
      split; [exact Hd|]. split; [exact Hs|]. intros e. eapply Hok, E2.
    + cbn [truthy]. eexists (Ok _), _. split; [reflexivity|].
      split; [apply reading_typed_empty|]. split; [apply lookup_empty|].
      intros e. eapply Hok, E2.
    + eexists (Raise e), _. split; [reflexivity|exact Hb].
  - destruct Hw as [Hw|Hw]; congruence.
Qed.

(** X10.  The filesystem source reports no remaining time: without a battery
    from psutil and without [--secs], the renderer is called with [None]
    as the remaining seconds, unless the listing of the directory raises,
    which ends the command. *)
Theorem show_without_psutil_no_time w level status :
  psutil w = None \/ psutil w = Some (Ok None) ->
  exists t,
    match power_supply w with
    | Some (Raise e) => run (show int_of_str w level status None) = (Raise e, t)
    | _ =>
        exists p s,
          run (show int_of_str w level status None) = render_battery w p s None t
    end.
Proof.
  intros Hw.
  destruct (read_sources_without_psutil w Hw) as (r & t & E & Hr).
  exists t. unfold run in E.
  destruct r as [info|e].
  - destruct Hr as (Hty & Hs & Hne).
    destruct (render_args_typed _ (override_typed level status None _ Hty))
      as (p & s & secs & Ea & _ & _ & Hsecs).
    assert (override level status None info !! "secs_left" = None) as Hnone.
    { unfold override. destruct level, status;
        rewrite ?lookup_insert_ne by done; exact Hs. }
    rewrite (Hsecs Hnone) in Ea.
    assert (run (show int_of_str w level status None) = render_battery w p s None t)
      as Es.
    { unfold show, run, mbind, M_bind. rewrite E, Ea. reflexivity. }
    destruct (power_supply w) as [[entries|e]|]; eauto.
    exfalso. eapply Hne. reflexivity.
  - rewrite Hr. unfold show, run, mbind, M_bind. rewrite E. reflexivity.
Qed.

(** X11.  A battery reported by psutil with the remaining time unknown ([None]
    or any negative value, the constants -1 and -2 among them) is shown
    with the time text "Charging..." when the power is plugged in and
    "Unknown" when it is not; the percent shown is the rounded one. *)
Theorem show_psutil_time_text w b :
  psutil w = Some (Ok (Some b)) ->
  absent_or_negative (sb_secsleft b) ->
  exists s secs,
    run (show int_of_str w None None None)
    = render_battery w (py_round (sb_percent b)) s secs
        [EImportPsutil; ESensorsBattery] /\
    format_time secs (Some s)
    = Ok (if bool_decide (sb_power_plugged b = Some true)
          then lit "Charging..." else lit "Unknown").
Proof.
  intros Hw Hsecs.
  set (secs := match sb_secsleft b with
               | Some n => if n =? -1 then None else Some n
               | None => None
               end).
  set (s := if default false (sb_power_plugged b)
            then lit "Charging" else lit "Discharging").
  exists s, secs. split.
  - unfold show, read_sources, get_psutil_battery, run.
    unfold mbind, M_bind, mret, M_ret, tell. cbn beta iota. rewrite Hw.
    cbn [app]. rewrite truthy_insert. cbn [default override].
    unfold render_args. unfold id. rewrite lookup_insert_eq.
    rewrite (lookup_insert_ne _ "secs_left" "status"), lookup_insert_eq by done.
    rewrite !(lookup_insert_ne _ _ "percent"), lookup_insert_eq by done.
    cbn [default]. fold s. subst secs.
    destruct (sb_secsleft b) as [n|]; [destruct (n =? -1)|]; reflexivity.
  - assert (absent_or_negative secs) as Hneg.
    { subst secs. destruct (sb_secsleft b) as [n|]; [|exact I].
      destruct (n =? -1); [exact I|exact Hsecs]. }
    assert (forall st, format_time secs st =
              if truthy_str st && startswith (lower (default [] st)) (lit "charg")
              then Ok (lit "Charging...") else Ok (lit "Unknown")) as F.
    { intros st. unfold format_time. destruct secs as [n|]; [|reflexivity].
      cbn in Hneg. destruct (Z.ltb_spec n 0); [reflexivity|lia]. }
    rewrite F. subst s. destruct (sb_power_plugged b) as [[|]|]; reflexivity.
Qed.

End ShowValues.

Lemma show_without_psutil_no_time_witness :
  exists t p s,
    run (show (fun _ => Some 87) sysfs_world None (Some (lit "Charging")) None)
    = render_battery sysfs_world p s None t.
Proof.
  exact (show_without_psutil_no_time (fun _ => Some 87) sysfs_world None
           (Some (lit "Charging")) (or_intror eq_refl)).
Defined.

Lemma show_psutil_time_text_witness :
  exists s secs,
    run (show (fun _ => None)
           {| psutil := Some (Ok (Some unlimited_battery)); power_supply := None;
              terminal_columns := None; console_write := fun _ _ => None |} None None None)
    = render_battery
        {| psutil := Some (Ok (Some unlimited_battery)); power_supply := None;
           terminal_columns := None; console_write := fun _ _ => None |}
        (py_round (sb_percent unlimited_battery)) s secs
        [EImportPsutil; ESensorsBattery] /\
    format_time secs (Some s)
    = Ok (if bool_decide (sb_power_plugged unlimited_battery = Some true)
          then lit "Charging..." else lit "Unknown").
Proof.
  apply (show_psutil_time_text (fun _ => None)
           {| psutil := Some (Ok (Some unlimited_battery)); power_supply := None;
              terminal_columns := None; console_write := fun _ _ => None |} unlimited_battery).
  - reflexivity.
  - vm_compute. reflexivity.
Defined.

(** ** The filesystem source *)

Lemma under_base_file name fname :
  startswith (path_join (path_join base name) fname) (base ++ lit "/") = true.
Proof.
  apply startswith_prefix. exists (name ++ lit "/" ++ fname).
  unfold path_join. rewrite <- !app_assoc. reflexivity.
Qed.

Section SysSearchProps.

Variable int_of_str : pystr -> option Z.

(** Reading a device gives its reading or raises, after file queries
    below the power-supply directory. *)
Lemma read_device_spec name d t :
  exists r evs,
    read_device int_of_str (path_join base name) d t = (r, t ++ evs) /\
    Forall under_base evs /\
    match content_reading int_of_str d with
    | Some x => r = Ok (Some x)
    | None => exists e, r = Raise e
    end.
Proof.
  pose proof (under_base_file name (lit "capacity")) as Uc.
  pose proof (under_base_file name (lit "status")) as Us.
  unfold read_device, readf, py_int, content_reading, status_text.
  unfold mbind, M_bind, mret, M_ret, tell, raise. cbn beta iota.
  destruct (dev_capacity d) as [| |c]; destruct (dev_status d) as [| |s];
    rewrite <- ?app_assoc; cbn [app];
    try destruct (int_of_str (strip c)) as [n|];
    try (destruct (strip s) as [|c0 s0] eqn:Es; cbn [truthy_str default]);
    eexists _, _; (split; [reflexivity|]);
    (split; [repeat constructor; assumption|]); eauto.
Qed.

(** The loop returns the reading of the first entry that gives one;
    all it does besides is to query files below the directory. *)
Lemma scan_devices_spec entries : forall t,
  exists evs,
    scan_devices int_of_str entries t = (Ok (first_reading int_of_str entries), t ++ evs) /\
    Forall under_base evs.
Proof.
  induction entries as [|[name d] rest IH]; intros t.
  - exists []. rewrite app_nil_r. split; [reflexivity|constructor].
  - cbn [scan_devices first_reading]. unfold device_reading, is_candidate.
    assert (forall t0, exists evs,
      try_except (read_device int_of_str (path_join base name) d)
        (scan_devices int_of_str rest) t0
      = (Ok match content_reading int_of_str d with
            | Some r => Some r
            | None => first_reading int_of_str rest
            end, t0 ++ evs) /\ Forall under_base evs) as Htry.
    { intros t0. unfold try_except.
      destruct (read_device_spec name d t0) as (r & evs & -> & Hev & Hr).
      destruct (content_reading int_of_str d) as [x|].
      - subst r. exists evs. split; [reflexivity|exact Hev].
      - destruct Hr as (e & ->). destruct (IH (t0 ++ evs)) as (evs' & -> & Hev').
        exists (evs ++ evs'). rewrite app_assoc. split; [reflexivity|].
        apply Forall_app_2; assumption. }
    unfold exists_file, mbind, M_bind, mret, M_ret, tell. cbn beta iota.
    destruct (startswith (lower name) (lit "bat")); cbn [orb]; [apply Htry|].
    pose proof (under_base_file name (lit "capacity")) as Uc.
    destruct (dev_capacity d) eqn:Ecap.
    + destruct (IH (t ++ [EExists (path_join (path_join base name) (lit "capacity"))]))
        as (evs & -> & Hev).
      eexists (_ :: evs). rewrite <- app_assoc. split; [reflexivity|].
      constructor; assumption.
    + destruct (Htry (t ++ [EExists (path_join (path_join base name) (lit "capacity"))]))
        as (evs & -> & Hev).
      eexists (_ :: evs). rewrite <- app_assoc. split; [reflexivity|].
      constructor; assumption.
    + destruct (Htry (t ++ [EExists (path_join (path_join base name) (lit "capacity"))]))
        as (evs & -> & Hev).
      eexists (_ :: evs). rewrite <- app_assoc. split; [reflexivity|].
      constructor; assumption.
Qed.

(** X12.  [get_sys_battery] raises only what the listing of the directory
    raises, the call of [os.listdir] being outside the [try].  Without the
    directory it returns [None]; with a listing it returns the reading of
    the first entry, in the order of the listing, that is a candidate (a
    name starting with "bat" or a capacity file) and whose capacity parses
    and whose status file, if there is one, can be read; [None] if no
    entry does. *)
Theorem get_sys_battery_first w t :
  exists t',
    get_sys_battery int_of_str w t
    = (match power_supply w with
       | None => Ok None
       | Some (Raise e) => Raise e
       | Some (Ok entries) => Ok (first_reading int_of_str entries)
       end, t').
Proof.
  unfold get_sys_battery, mbind, M_bind, mret, M_ret, tell, raise. cbn beta iota.
  destruct (power_supply w) as [[entries|e]|].
  - destruct (scan_devices_spec entries ((t ++ [EIsDir base]) ++ [EListDir base]))
      as (evs & -> & _). eauto.
  - eauto.
  - eauto.
Qed.

(** X13.  [get_sys_battery] only adds to the trace, and only queries of the
    power-supply directory and of paths below it: it does not print and
    does not ask psutil or the terminal; without the directory the one
    query is the directory test. *)
Theorem get_sys_battery_footprint w t :
  exists r evs,
    get_sys_battery int_of_str w t = (r, t ++ evs) /\
    Forall under_base evs /\
    (power_supply w = None -> evs = [EIsDir base]).
Proof.
  unfold get_sys_battery, mbind, M_bind, mret, M_ret, tell, raise. cbn beta iota.
  destruct (power_supply w) as [[entries|e]|].
  - destruct (scan_devices_spec entries ((t ++ [EIsDir base]) ++ [EListDir base]))
      as (evs & -> & Hev).
    eexists _, (EIsDir base :: EListDir base :: evs).
    rewrite <- !app_assoc. split; [reflexivity|].
    split; [repeat constructor; assumption|discriminate].
  - eexists _, [EIsDir base; EListDir base].
    rewrite <- !app_assoc. split; [reflexivity|].
    split; [repeat constructor|discriminate].
  - eexists _, _. split; [reflexivity|]. split; [repeat constructor|reflexivity].
Qed.

(** X14.  A device is passed over, and the scan goes on as if it were not
    listed, when its status file cannot be read, even with a capacity that
    parses, and when its capacity is missing, unreadable or does not
    parse. *)
Theorem scan_devices_skips name d rest t :
  dev_status d = Unreadable \/
  (forall c, dev_capacity d = Content c -> int_of_str (strip c) = None) ->
  (scan_devices int_of_str ((name, d) :: rest) t).1
  = (scan_devices int_of_str rest t).1.
Proof.
  intros H.
  destruct (scan_devices_spec ((name, d) :: rest) t) as (evs & -> & _).
  destruct (scan_devices_spec rest t) as (evs' & -> & _).
  cbn [fst first_reading]. f_equal.
  assert (content_reading int_of_str d = None) as Hc.
  { unfold content_reading. destruct H as [-> | H].
    - destruct (dev_capacity d); reflexivity.
    - destruct (dev_capacity d) as [| |c]; try reflexivity.
      rewrite (H c eq_refl). destruct (status_text _); reflexivity. }
  unfold device_reading. rewrite Hc. destruct (is_candidate name d); reflexivity.
Qed.

End SysSearchProps.

Lemma scan_devices_skips_witness :
  (scan_devices (fun _ => Some 64)
     [(lit "BAT0", {| dev_capacity := Content (lit "64"); dev_status := Unreadable |});
      (lit "BAT1", {| dev_capacity := Content (lit "64"); dev_status := Absent |})]
     []).1
  = (scan_devices (fun _ => Some 64)
       [(lit "BAT1", {| dev_capacity := Content (lit "64"); dev_status := Absent |})]
       []).1.
Proof.
  apply (scan_devices_skips (fun _ => Some 64)). left. reflexivity.
Defined.

(** ** White space around the attribute files *)

Lemma lstrip_blank a x : blank a -> lstrip (a ++ x) = lstrip x.
Proof.
  induction 1 as [|c a Hc _ IH]; [reflexivity|].
  cbn [app lstrip]. rewrite Hc. exact IH.
Qed.

Lemma lstrip_app x b : lstrip x <> [] -> lstrip (x ++ b) = lstrip x ++ b.
Proof.
  induction x as [|c x IH]; cbn [app lstrip]; [congruence|].
  destruct (is_space c); [exact IH|reflexivity].
Qed.

Lemma lstrip_nil_blank x : lstrip x = [] -> blank x.
Proof.
  induction x as [|c x IH]; cbn [lstrip]; intros H.
  - apply Forall_nil_2.
  - destruct (is_space c) eqn:E; [|discriminate].
    apply Forall_cons_2; [exact E|apply IH, H].
Qed.

Lemma blank_rev a : blank a -> blank (rev a).
Proof. apply Forall_rev. Qed.

Lemma strip_pad a c b : blank a -> blank b -> strip (a ++ c ++ b) = strip c.
Proof.
  intros Ha Hb. unfold strip. rewrite lstrip_blank by exact Ha.
  destruct (lstrip c) as [|y ys] eqn:E.
  - pose proof (lstrip_nil_blank c E) as Hc.
    rewrite lstrip_blank by exact Hc.
    rewrite <- (app_nil_r b), lstrip_blank by exact Hb. reflexivity.
  - rewrite lstrip_app by congruence. rewrite E, rev_app_distr.
    rewrite lstrip_blank by (apply blank_rev; exact Hb). reflexivity.
Qed.

Section SysBlank.

Variable int_of_str : pystr -> option Z.

(** X15.  White space before and after the content of the capacity and status
    files, such as the newline that ends them, changes nothing in what the
    scan returns. *)
Theorem scan_devices_ignores_blanks name cap st rest t a b a' b' :
  blank a -> blank b -> blank a' -> blank b' ->
  (scan_devices int_of_str
     ((name, {| dev_capacity := pad_file a b cap;
                dev_status := pad_file a' b' st |}) :: rest) t).1
  = (scan_devices int_of_str
       ((name, {| dev_capacity := cap; dev_status := st |}) :: rest) t).1.
Proof.
  intros Ha Hb Ha' Hb'.
  destruct (scan_devices_spec int_of_str
              ((name, {| dev_capacity := pad_file a b cap;
                         dev_status := pad_file a' b' st |}) :: rest) t)
    as (evs & -> & _).
  destruct (scan_devices_spec int_of_str
              ((name, {| dev_capacity := cap; dev_status := st |}) :: rest) t)
    as (evs' & -> & _).
  cbn [fst first_reading]. f_equal.
  unfold device_reading, is_candidate, content_reading, status_text.
  cbn [dev_capacity dev_status].
  destruct cap as [| |c]; destruct st as [| |s]; cbn [pad_file];
    rewrite ?strip_pad by assumption; reflexivity.
Qed.

End SysBlank.

Lemma scan_devices_ignores_blanks_witness :
  (scan_devices (fun s => if decide (s = lit "87") then Some 87 else None)
     [(lit "BAT0",
       {| dev_capacity := pad_file [] [10%N] (Content (lit "87"));
          dev_status := pad_file [32%N] [10%N] (Content (lit "Full")) |})] []).1
  = (scan_devices (fun s => if decide (s = lit "87") then Some 87 else None)
       [(lit "BAT0",
         {| dev_capacity := Content (lit "87");
            dev_status := Content (lit "Full") |})] []).1.
Proof.
  apply (scan_devices_ignores_blanks
           (fun s => if decide (s = lit "87") then Some 87 else None));
    repeat constructor.
Defined.

(** ** Reading the clock back *)

Lemma two_digits_value n : 0 <= n < 100 -> digits_value (two_digits n) = n.
Proof.
  intros H. unfold two_digits, digits_value, digit. cbn [fold_left].
  assert (0 <= n / 10 < 10)
    by (split; [apply Z.div_pos; lia|apply Z.div_lt_upper_bound; lia]).
  pose proof (Z.mod_pos_bound n 10 ltac:(lia)).
  pose proof (Z.div_mod n 10 ltac:(lia)). lia.
Qed.

Lemma clock_seconds_hms secs : 0 <= secs -> clock_seconds (hms secs) = secs.
Proof.
  intros H. unfold clock_seconds, hms, str_of_int.
  assert (0 <= secs / 3600) as Hh by (apply Z.div_pos; lia).
  destruct (Z.ltb_spec (secs / 3600) 0); [lia|].
  set (h := digits (secs / 3600)).
  set (m := two_digits (secs / 60 mod 60)).
  set (s := two_digits (secs mod 60)).
  assert (length (h ++ lit ":" ++ m ++ lit ":" ++ s) = (length h + 6)%nat) as L
    by (rewrite length_app; reflexivity).
  rewrite L.
  replace (length h + 6 - 6)%nat with (length h) by lia.
  replace (length h + 6 - 5)%nat with (length h + 1)%nat by lia.
  replace (length h + 6 - 2)%nat with (length h + 4)%nat by lia.
  rewrite take_app_length.
  rewrite !drop_app_add.
  change (take 2 (drop 1 (lit ":" ++ m ++ lit ":" ++ s))) with m.
  change (drop 4 (lit ":" ++ m ++ lit ":" ++ s)) with s.
  subst h m s. rewrite digits_denote by lia.
  pose proof (Z.mod_pos_bound secs 60 ltac:(lia)).
  pose proof (Z.mod_pos_bound (secs / 60) 60 ltac:(lia)).
  rewrite !two_digits_value by lia.
  pose proof (Z.div_mod secs 60 ltac:(lia)).
  pose proof (Z.div_mod (secs / 60) 60 ltac:(lia)).
  replace (secs / 3600) with (secs / 60 / 60) by (rewrite Z.div_div by lia; reflexivity).
  lia.
Qed.

(** X16.  Within a day the clock text can be read back: hours, minutes and
    seconds of the text give the seconds, so that two different times never
    show the same text. *)
Theorem format_time_read_back secs status :
  0 <= secs < 86400 ->
  exists txt,
    format_time (Some secs) status = Ok txt /\
    clock_seconds txt = secs /\
    (forall secs' status', 0 <= secs' < 86400 ->
       format_time (Some secs') status' = Ok txt -> secs' = secs).
Proof.
  assert (forall n st, 0 <= n < 86400 -> format_time (Some n) st = Ok (hms n)) as F.
  { intros n st Hn. unfold format_time. destruct (Z.ltb_spec n 0); [lia|].
    rewrite timedelta_str_day by lia. cbn [rbind].
    rewrite split_dot_first_id by apply hms_no_dot. reflexivity. }
  intros H. exists (hms secs). split; [apply F, H|].
  split; [apply clock_seconds_hms; lia|].
  intros secs' status' H' E. rewrite F in E by exact H'.
  apply Ok_inj in E.
  rewrite <- (clock_seconds_hms secs'), E by lia. apply clock_seconds_hms. lia.
Qed.

Lemma format_time_read_back_witness :
  exists txt,
    format_time (Some 45296) None = Ok txt /\
    clock_seconds txt = 45296 /\
    (forall secs' status', 0 <= secs' < 86400 ->
       format_time (Some secs') status' = Ok txt -> secs' = 45296).
Proof. apply (format_time_read_back 45296 None). lia. Defined.

(** ** The command on the filesystem source *)

Section ShowSysfs.

Variable int_of_str : pystr -> option Z.

Lemma first_reading_shape entries d :
  first_reading int_of_str entries = Some d ->
  exists n st, d = <["status" := VStr st]> (<["percent" := VInt n]> ∅).
Proof.
  induction entries as [|[name dev] rest IH]; cbn [first_reading]; [discriminate|].
  unfold device_reading, content_reading.
  destruct (is_candidate name dev); [|exact IH].
  destruct (dev_capacity dev) as [| |c]; try exact IH.
  destruct (status_text (dev_status dev)) as [st|]; [|exact IH].
  destruct (int_of_str (strip c)) as [n|]; [|exact IH].
  intros [= <-]. eauto.
Qed.

Lemma get_sys_battery_spec w t :
  exists t',
    get_sys_battery int_of_str w t
    = (match power_supply w with
       | None => Ok None
       | Some (Raise e) => Raise e
       | Some (Ok entries) => Ok (first_reading int_of_str entries)
       end, t').
Proof.
  unfold get_sys_battery, mbind, M_bind, mret, M_ret, tell, raise. cbn beta iota.
  destruct (power_supply w) as [[entries|e]|]; [|eauto|eauto].
  destruct (scan_devices_spec int_of_str entries
              ((t ++ [EIsDir base]) ++ [EListDir base])) as (evs & -> & _).
  eauto.
Qed.

(** X17.  Without a battery from psutil and without options, the command
    renders the percent and the status of the first device of the
    power-supply directory that gives a reading, with no remaining time;
    the status is "Unknown" when the device has no status text. *)
Theorem show_from_sysfs w entries d :
  psutil w = None \/ psutil w = Some (Ok None) ->
  power_supply w = Some (Ok entries) ->
  first_reading int_of_str entries = Some d ->
  exists n st t,
    d !! "percent" = Some (VInt n) /\
    d !! "status" = Some (VStr st) /\
    st <> [] /\
    run (show int_of_str w None None None) = render_battery w n st None t.
Proof.
  intros Hw Hps Hd.
  destruct (first_reading_shape entries d Hd) as (n & st & ->).
  assert (st <> []) as Hst.
  { clear - Hd. induction entries as [|[name dev] rest IH];
      cbn [first_reading] in Hd; [discriminate|].
    unfold device_reading, content_reading in Hd.
    destruct (is_candidate name dev); [|exact (IH Hd)].
    destruct (dev_capacity dev) as [| |c]; try exact (IH Hd).
    destruct (status_text (dev_status dev)) as [st'|] eqn:Es; [|exact (IH Hd)].
    destruct (int_of_str (strip c)) as [n'|]; [|exact (IH Hd)].
    apply (f_equal (fun o => o ≫= fun m : dict => m !! "status")) in Hd.
    cbn in Hd. rewrite !lookup_insert_eq in Hd. injection Hd as ->.
    unfold status_text in Es. destruct (dev_status dev) as [| |s]; try discriminate.
    - injection Es as <-. discriminate.
    - injection Es as <-. destruct (strip s); discriminate. }
  exists n, st. 
  destruct (get_psutil_battery_result w []) as (a & evs & E & _ & Ha).
  cbn [app] in E.
  assert (a = Ok None) as ->.
  { destruct a as [[r|]|e]; [| reflexivity |];
      [destruct Ha as (_ & _ & b & Hb)|]; destruct Hw as [Hw|Hw]; congruence. }
  destruct (get_sys_battery_spec w evs) as (t' & Es).
  rewrite Hps, Hd in Es.
  exists t'. split; [rewrite lookup_insert_ne by done; apply lookup_insert_eq|].
  split; [apply lookup_insert_eq|]. split; [exact Hst|].
  unfold show, read_sources, run, mbind, M_bind, mret, M_ret.
  rewrite E. cbn [truthy]. rewrite Es, truthy_insert.
  unfold override, render_args. unfold default, id. cbn [from_option].
  rewrite lookup_insert_eq, !lookup_insert_ne by done.
  rewrite lookup_insert_eq. reflexivity.
Qed.

End ShowSysfs.

Lemma show_from_sysfs_witness :
  let w := {| psutil := None;
              power_supply :=
                Some (Ok [(lit "AC", {| dev_capacity := Absent; dev_status := Absent |});
                      (lit "BAT0", {| dev_capacity := Content (lit "87");
                                      dev_status := Absent |})]);
              terminal_columns := None; console_write := fun _ _ => None |} in
  exists n st t,
    ({["percent" := VInt 87; "status" := VStr (lit "Unknown")]} : dict) !! "percent"
    = Some (VInt n) /\
    ({["percent" := VInt 87; "status" := VStr (lit "Unknown")]} : dict) !! "status"
    = Some (VStr st) /\
    st <> [] /\
    run (show (fun _ => Some 87) w None None None) = render_battery w n st None t.
Proof.
  cbn zeta.
  eapply (show_from_sysfs (fun _ => Some 87)).
  - left. reflexivity.
  - reflexivity.
  - vm_compute. reflexivity.
Defined.
